(** * surfinBH: the [Fit3dq8] evaluator (surfinBH/_fit_evaluators/fit_3dq8.py)

    A shallow embedding of the parameter mapper [_get_fit_params], the range
    validator [_check_param_limits] and the dispatcher [_eval_wrapper] of the
    class [Fit3dq8], together with the properties the specification states
    about them.

    Numbers.  The source computes with Python and numpy floats, which are
    IEEE-754 binary64: they are Rocq's primitive floats here, NaN and
    infinities included, and every definition evaluates.  The validator and
    the dispatcher are written over an interface [Scalar] of the operations
    they use, read at the instance [Binary64].  The mapper is a function of
    Python floats: its division raises [ZeroDivisionError], its power is the
    [pow] of the C library and raises [OverflowError], and [np.log] warns.

    Effects.  [warnings.warn], [raise], the early [return]s and the calls to
    the fit evaluator are modelled by a small monad over a [world] that
    records the emitted warnings and the evaluator calls. *)

From Stdlib Require Import ZArith QArith Bool List String Lia.
From Stdlib Require Import Floats.
Import ListNotations.

Set Implicit Arguments.
Set Warnings "-inexact-float,-register-all".

(* ===================================================================== *)
(** * A small model of the Python run time *)
(* ===================================================================== *)

Module Py.

(** The exceptions this file can raise.  [ValueError] and [Exception] carry
    the message of the source; [IndexError i n] is numpy's "index i is out
    of bounds for axis 0 with size n"; [UnboundLocalError] is what reading
    an unassigned local raises; [UnsupportedOption] is the rejection of
    unused keyword options by the base class; [ZeroDivisionError] and
    [OverflowError] are raised by the division and the power of Python
    floats. *)
Inductive exn : Type :=
| ValueError (msg : string)
| Exception (msg : string)
| IndexError (i size : nat)
| UnboundLocalError (name : string)
| UnsupportedOption (keys : list string)
| ZeroDivisionError
| OverflowError.

(** How a block of statements ends: it falls through with a value, it
    executes [return r], or it raises. *)
Inductive outcome (R A : Type) : Type :=
| Next (a : A)
| Return (r : R)
| Raise (e : exn).
Arguments Next {R A} a.
Arguments Return {R A} r.
Arguments Raise {R A} e.

(** What a caller observes of a call: a value ([None] when the body falls
    off its end) or an exception. *)
Inductive result (R : Type) : Type :=
| Value (r : option R)
| Error (e : exn).
Arguments Value {R} r.
Arguments Error {R} e.

Section World.
Variable T : Type.

(** The observable effects: the messages passed to [warnings.warn], and
    the calls made to the fit evaluator (fit key and argument), both in
    program order. *)
Record world : Type := World {
  warnings : list string;
  calls : list (string * list T)
}.

Definition M (R A : Type) : Type := world -> outcome R A * world.

Definition ret {R A} (a : A) : M R A := fun w => (Next a, w).

Definition bind {R A B} (m : M R A) (k : A -> M R B) : M R B :=
  fun w =>
    match m w with
    | (Next a, w') => k a w'
    | (Return r, w') => (Return r, w')
    | (Raise e, w') => (Raise e, w')
    end.

Definition raise {R A} (e : exn) : M R A := fun w => (Raise e, w).

Definition return_ {R A} (r : R) : M R A := fun w => (Return r, w).

(** [warnings.warn(msg)] *)
Definition warn {R} (msg : string) : M R unit :=
  fun w => (Next tt, {| warnings := warnings w ++ [msg]; calls := calls w |}).

(** One call to the evaluator is logged. *)
Definition log_call {R} (key : string) (x : list T) : M R unit :=
  fun w => (Next tt, {| warnings := warnings w; calls := calls w ++ [(key, x)] |}).

(** A function call: run the body from the caller's world. *)
Definition call {R} (body : M R unit) (w : world) : result R * world :=
  match body w with
  | (Next _, w') => (Value None, w')
  | (Return r, w') => (Value (Some r), w')
  | (Raise e, w') => (Error e, w')
  end.

(** [a[i]] on a one-dimensional array. *)
Definition index {R} (a : list T) (i : nat) : M R T :=
  match nth_error a i with
  | Some v => ret v
  | None => raise (IndexError i (List.length a))
  end.

(** Reading a local variable that may not have been assigned. *)
Definition local {R A} (name : string) (v : option A) : M R A :=
  match v with
  | Some a => ret a
  | None => raise (UnboundLocalError name)
  end.

(** The values [_eval_wrapper] returns: numbers, arrays and tuples. *)
Inductive value : Type :=
| Num (x : T)
| Arr (xs : list T)
| Tuple (vs : list value).

End World.

Arguments ret {T R A} a.
Arguments raise {T R A} e.
Arguments return_ {T R A} r.
Arguments warn {T R} msg.
Arguments log_call {T R} key x.
Arguments local {T R A} name v.

Module Notations.
Declare Scope py_scope.
Delimit Scope py_scope with py.
Notation "x <- m ;; k" := (bind m (fun x => k))
  (at level 61, m at next level, right associativity) : py_scope.
Notation "' p <- m ;; k" := (bind m (fun x => match x with p => k end))
  (at level 61, p pattern, m at next level, right associativity) : py_scope.
Notation "m ;; k" := (bind m (fun _ => k))
  (at level 61, right associativity) : py_scope.
Notation "'pass'" := (ret tt) : py_scope.
End Notations.

End Py.

Import Py Py.Notations.

(* ===================================================================== *)
(** * The arithmetic of the source *)
(* ===================================================================== *)

(** The operations of Python/numpy numbers the three functions use.  [lit]
    reads a decimal literal of the source; [ltb x y] is [x < y] ([x > y] is
    written [ltb y x]); [leb] is only used to state properties. *)
Class Scalar (T : Type) : Type := {
  lit : Q -> T;
  add : T -> T -> T;
  sub : T -> T -> T;
  mul : T -> T -> T;
  div : T -> T -> T;
  sqrt : T -> T;
  abs : T -> T;
  ltb : T -> T -> bool;
  leb : T -> T -> bool
}.
Arguments lit {T _} q%_Q.

Declare Scope scalar_scope.
Delimit Scope scalar_scope with sc.
Infix "+" := add : scalar_scope.
Infix "-" := sub : scalar_scope.
Infix "*" := mul : scalar_scope.
Infix "/" := div : scalar_scope.
Infix "<" := ltb : scalar_scope.
Infix "<=" := leb : scalar_scope.
Notation "x > y" := (ltb y x) : scalar_scope.

(** The facts about the order the properties of the validator rest on.  They
    are stated so that they hold of IEEE comparisons too, where every
    comparison with a NaN is false. *)
Class ScalarOrder (T : Type) (S : Scalar T) : Prop := {
  leb_not_gt : forall x y : T, leb x y = true -> ltb y x = false;
  ltb_not_gt : forall x y : T, ltb x y = true -> ltb y x = false;
  ltb_trans : forall x y z : T, ltb x y = true -> ltb y z = true -> ltb x z = true;
  leb_ltb_trans : forall x y z : T, leb x y = true -> ltb y z = true -> ltb x z = true;
  lit_1_lt_8_01 : ltb (lit 1) (lit 8.01) = true;
  lit_8_01_lt_10_01 : ltb (lit 8.01) (lit 10.01) = true;
  lit_0_81_lt_1 : ltb (lit 0.81) (lit 1) = true
}.

(* --------------------------------------------------------------------- *)
(** ** IEEE-754 binary64 *)
(* --------------------------------------------------------------------- *)

Module Binary64.

(** An integer as a float (exact below 2^53). *)
Definition of_Z (z : Z) : float :=
  match z with
  | Z0 => PrimFloat.zero
  | Zpos _ => PrimFloat.of_uint63 (Uint63.of_Z z)
  | Zneg p => PrimFloat.opp (PrimFloat.of_uint63 (Uint63.of_Z (Zpos p)))
  end.

(** A decimal literal [n/10^k]: the division is correctly rounded, so this
    is the double nearest to the literal whenever [n] and [10^k] are exact,
    as they are for every literal of the source. *)
Definition of_Q (q : Q) : float :=
  PrimFloat.div (of_Z (Qnum q)) (of_Z (Zpos (Qden q))).

#[global] Instance float_scalar : Scalar float := {
  lit := of_Q;
  add := PrimFloat.add;
  sub := PrimFloat.sub;
  mul := PrimFloat.mul;
  div := PrimFloat.div;
  sqrt := PrimFloat.sqrt;
  abs := PrimFloat.abs;
  ltb := PrimFloat.ltb;
  leb := PrimFloat.leb
}.

End Binary64.

(* ===================================================================== *)
(** * The class [Fit3dq8] *)
(* ===================================================================== *)

Section Fit3dq8.

Context {T : Type} {S : Scalar T}.

(** The keyword options of a call ([**kwargs]): names with their values. *)
Definition kwargs_t : Type := list (string * value T).

Local Open Scope scalar_scope.
Local Open Scope py_scope.

(** [x**2], which numpy computes as [x*x]. *)
Definition square (x : T) : T := x * x.

(** [np.sum] of a one-dimensional array: the reduction starts from the first
    element; the sum of an empty array is [0]. *)
Definition np_sum (a : list T) : T :=
  match a with
  | [] => lit 0
  | x :: r => fold_left add r x
  end.

(** ** [_check_param_limits] (lines 84-112) *)

(** [np.sqrt(np.sum(chi[:2]**2))] *)
Definition in_plane (chi : list T) : T :=
  sqrt (np_sum (map square (firstn 2 chi))).

(** The function has no [return]: it is a block that falls through, warns or
    raises.  [kwargs] is received and not read.  [chiA[2]] is read once here
    where the source reads it in both tests of the [if]/[elif]. *)
Definition _check_param_limits {R} (q : T) (chiA chiB : list T)
    (kwargs : kwargs_t) : M T R unit :=
  (if in_plane chiA > lit 1e-10 then
     raise (ValueError "The x and y components of chiA should be zero.")
   else pass) ;;
  (if in_plane chiB > lit 1e-10 then
     raise (ValueError "The x and y components of chiB should be zero.")
   else pass) ;;
  (if q < lit 1 then
     raise (ValueError "Mass ratio should be >= 1.")
   else if q > lit 10.01 then
     raise (Exception "Mass ratio outside allowed range.")
   else if q > lit 8.01 then
     warn "Mass ratio outside training range."
   else pass) ;;
  (chiAz <- index chiA 2 ;;
   if abs chiAz > lit 1 then
     raise (Exception "Spin magnitude of BhA outside allowed range.")
   else if abs chiAz > lit 0.81 then
     warn "Spin magnitude of BhA outside training range."
   else pass) ;;
  (chiBz <- index chiB 2 ;;
   if abs chiBz > lit 1 then
     raise (Exception "Spin magnitude of BhB outside allowed range.")
   else if abs chiBz > lit 0.81 then
     warn "Spin magnitude of BhB outside training range."
   else pass).

(** ** The methods inherited from [surfinBH.SurFinBH] *)

(** Modelled from the spec: [_check_unused_kwargs] belongs to the base class
    [surfinBH.SurFinBH], which is not among the sources.  The specification
    says that the system recognizes no evaluation-time option, and that any
    option passed is rejected as [UnsupportedOption]. *)
Definition _check_unused_kwargs {R} (kwargs : kwargs_t) : M T R unit :=
  match kwargs with
  | [] => pass
  | _ :: _ => raise (UnsupportedOption (map fst kwargs))
  end.

Section Dispatcher.

(** The fit evaluator: for a fit key and an argument [x], the value of the
    fit and its one-sigma error. *)
Variable evaluator : string -> list T -> T * T.

(** Modelled from the spec: [_evaluate_fits] belongs to the base class too.
    The specification describes it as the external evaluator, which returns
    the pair (value, one-sigma error) of a scalar fit; here it is an arbitrary
    function of the fit key and of the argument, and every call is recorded
    in the world. *)
Definition _evaluate_fits {R} (x : list T) (fit_key : string) : M T R (T * T) :=
  log_call fit_key x ;;
  ret (evaluator fit_key x).

(** ** [_eval_wrapper] (lines 115-145)

    [np.array(chiA)] is the identity on the lists of the model.  The locals
    assigned inside the first three [if]s are carried as options, and read
    with [local] by the last [return]. *)
Definition _eval_wrapper (fit_key : string) (q : T) (chiA chiB : list T)
    (kwargs : kwargs_t) : world T -> result (value T) * world T :=
  call (
    _check_param_limits q chiA chiB kwargs ;;
    _check_unused_kwargs kwargs ;;
    chiAz <- index chiA 2 ;;
    chiBz <- index chiB 2 ;;
    let x := [q; chiAz; chiBz] in
    mC_ <- (if (fit_key =? "mC")%string || (fit_key =? "all")%string then
              '(mC, mC_err) <- _evaluate_fits x "mC" ;;
              (if (fit_key =? "mC")%string then
                 return_ (Tuple [Num mC; Num mC_err])
               else pass) ;;
              ret (Some (mC, mC_err))
            else ret None) ;;
    chiC_ <- (if (fit_key =? "chiC")%string || (fit_key =? "all")%string then
                '(chiCz, chiCz_err) <- _evaluate_fits x "chiCz" ;;
                let chiC := [lit 0; lit 0; chiCz] in
                let chiC_err := [lit 0; lit 0; chiCz_err] in
                (if (fit_key =? "chiC")%string then
                   return_ (Tuple [Arr chiC; Arr chiC_err])
                 else pass) ;;
                ret (Some (chiC, chiC_err))
              else ret None) ;;
    velC_ <- (if (fit_key =? "velC")%string || (fit_key =? "all")%string then
                '(velCx, velCx_err) <- _evaluate_fits x "velCx" ;;
                '(velCy, velCy_err) <- _evaluate_fits x "velCy" ;;
                let velC := [velCx; velCy; lit 0] in
                let velC_err := [velCx_err; velCy_err; lit 0] in
                (if (fit_key =? "velC")%string then
                   return_ (Tuple [Arr velC; Arr velC_err])
                 else pass) ;;
                ret (Some (velC, velC_err))
              else ret None) ;;
    if (fit_key =? "all")%string then
      '(mC, mC_err) <- local "mC" mC_ ;;
      '(chiC, chiC_err) <- local "chiC" chiC_ ;;
      '(velC, velC_err) <- local "velC" velC_ ;;
      return_ (Tuple [Num mC; Arr chiC; Arr velC;
                      Num mC_err; Arr chiC_err; Arr velC_err])
    else pass).

End Dispatcher.

End Fit3dq8.

(* ===================================================================== *)
(** * [_get_fit_params] (fit_3dq8.py, lines 69-81) *)
(* ===================================================================== *)

(** The operations of Python floats that can raise (Objects/floatobject.c of
    CPython).  Addition, subtraction and multiplication are the IEEE
    operations and never raise. *)
Module PyFloat.

(** [a / b]: a divisor that is zero, of either sign, raises. *)
Definition div (a b : float) : exn + float :=
  if PrimFloat.eqb b 0 then inl ZeroDivisionError
  else inr (PrimFloat.div a b).

Section Pow.

(** [pow] of the C library: its value, and whether it leaves [errno] at
    [ERANGE].  Its rounding is the platform's: it is a parameter. *)
Variable libm_pow : float -> float -> float * bool.

(** [iv ** 2].  Python settles the special cases itself: a NaN gives the NaN,
    an infinity gives [+inf], a zero gives [0.0], a negative base is replaced
    by its opposite (the exponent is even), and 1 gives 1.  Otherwise it
    calls [pow]; a result that is infinite, or a range error with a result
    other than zero, raises [OverflowError]. *)
Definition pow2 (iv : float) : exn + float :=
  if PrimFloat.is_nan iv then inr iv
  else if PrimFloat.is_infinity iv then inr (PrimFloat.abs iv)
  else if PrimFloat.eqb iv 0 then inr 0%float
  else
    let iv := if PrimFloat.ltb iv 0 then PrimFloat.opp iv else iv in
    if PrimFloat.eqb iv 1 then inr 1%float
    else
      let '(ix, erange) := libm_pow iv 2 in
      let range_error :=
        if erange then negb (PrimFloat.eqb ix 0)
        else PrimFloat.is_infinity ix in
      if range_error then inl OverflowError else inr ix.

End Pow.

End PyFloat.

(** An operation that returns or raises, as a statement. *)
Definition lift {T R A : Type} (r : exn + A) : M T R A :=
  match r with
  | inl e => raise e
  | inr a => ret a
  end.

Section Mapper.

(** [pow] of the C library, see [PyFloat.pow2]. *)
Variable libm_pow : float -> float -> float * bool.

(** The value of [np.log], a function of numpy. *)
Variable np_log : float -> float.

Local Open Scope scalar_scope.
Local Open Scope py_scope.

(** [np.log(x)]: numpy warns (a [RuntimeWarning], through the warnings
    module) when [x] is zero and when [x] is negative. *)
Definition numpy_log {R} (x : float) : M float R float :=
  (if PrimFloat.eqb x 0 then warn "divide by zero encountered in log"
   else if PrimFloat.ltb x 0 then warn "invalid value encountered in log"
   else pass) ;;
  ret (np_log x).

(** The elements of [x] are Python floats.  [q, chiAz, chiBz = x] raises
    [ValueError] unless [x] has three elements (the interpreter appends the
    counts to the message).  The operations are those of the source, in the
    order Python evaluates them.  The argument [fit_key] is not used. *)
Definition _get_fit_params (x : list float) (fit_key : string)
  : world float -> result (list float) * world float :=
  call
    match x with
    | [q; chiAz; chiBz] =>
        (* eta = q/(1.+q)**2 *)
        sq <- lift (PyFloat.pow2 libm_pow (lit 1 + q)) ;;
        eta <- lift (PyFloat.div q sq) ;;
        (* chi_wtAvg = (q*chiAz+chiBz)/(1.+q) *)
        chi_wtAvg <- lift (PyFloat.div (q * chiAz + chiBz) (lit 1 + q)) ;;
        (* chiHat = (chi_wtAvg - 38.*eta/113.*(chiAz + chiBz))
                    /(1. - 76.*eta/113.) *)
        a <- lift (PyFloat.div (lit 38 * eta) (lit 113)) ;;
        b <- lift (PyFloat.div (lit 76 * eta) (lit 113)) ;;
        chiHat <- lift (PyFloat.div (chi_wtAvg - a * (chiAz + chiBz))
                                    (lit 1 - b)) ;;
        (* chi_a = (chiAz - chiBz)/2. *)
        chi_a <- lift (PyFloat.div (chiAz - chiBz) (lit 2)) ;;
        (* fit_params = [np.log(q), chiHat, chi_a] *)
        logq <- numpy_log q ;;
        let fit_params := [logq; chiHat; chi_a] in
        return_ fit_params
    | _ :: _ :: _ :: _ :: _ => raise (ValueError "too many values to unpack")
    | _ => raise (ValueError "not enough values to unpack")
    end.

End Mapper.

(* ===================================================================== *)
(** * The order laws of binary64 *)
(* ===================================================================== *)

(** Case analysis on the three-way comparisons of integers and positives. *)
Ltac cmp_cases :=
  repeat match goal with
  | |- context [Z.compare ?a ?b] => destruct (Z.compare_spec a b)
  | H : context [Z.compare ?a ?b] |- _ => destruct (Z.compare_spec a b)
  | |- context [Pos.compare_cont Eq ?a ?b] =>
      change (Pos.compare_cont Eq a b) with (Pos.compare a b)
  | H : context [Pos.compare_cont Eq ?a ?b] |- _ =>
      change (Pos.compare_cont Eq a b) with (Pos.compare a b) in H
  | |- context [Pos.compare ?a ?b] => destruct (Pos.compare_spec a b)
  | H : context [Pos.compare ?a ?b] |- _ => destruct (Pos.compare_spec a b)
  end.

(** Case analysis on the class (NaN, infinity, zero, finite) and the sign of
    every float in sight; what is left is arithmetic on exponents and
    mantissas. *)
Ltac sf_cases :=
  unfold SFltb, SFleb, SFcompare;
  repeat match goal with
  | x : spec_float |- _ => destruct x
  | b : bool |- _ => destruct b
  end;
  simpl; intros; try discriminate; try reflexivity;
  cmp_cases; simpl in *; try discriminate; try reflexivity; try (exfalso; lia).

Lemma SFleb_not_gt (x y : spec_float) : SFleb x y = true -> SFltb y x = false.
Proof. sf_cases. Qed.

Lemma SFltb_not_gt (x y : spec_float) : SFltb x y = true -> SFltb y x = false.
Proof. sf_cases. Qed.

Lemma SFltb_trans (x y z : spec_float) :
  SFltb x y = true -> SFltb y z = true -> SFltb x z = true.
Proof. sf_cases. Qed.

Lemma SFleb_ltb_trans (x y z : spec_float) :
  SFleb x y = true -> SFltb y z = true -> SFltb x z = true.
Proof. sf_cases. Qed.

#[global] Instance float_order : ScalarOrder Binary64.float_scalar.
Proof.
  split; cbn [ltb leb lit Binary64.float_scalar]; intros;
    rewrite ?ltb_spec, ?leb_spec in *.
  - now apply SFleb_not_gt.
  - now apply SFltb_not_gt.
  - eapply SFltb_trans; eassumption.
  - eapply SFleb_ltb_trans; eassumption.
  - vm_compute; reflexivity.
  - vm_compute; reflexivity.
  - vm_compute; reflexivity.
Qed.

(** The literals of the source, read by [lit], are the doubles Python reads. *)
Lemma float_literals :
  (lit 1e-10 : float) = 1e-10%float /\
  (lit 10.01 : float) = 10.01%float /\
  (lit 8.01 : float) = 8.01%float /\
  (lit 0.81 : float) = 0.81%float /\
  (lit 1 : float) = 1%float /\
  (lit 0 : float) = 0%float.
Proof. repeat split; vm_compute; reflexivity. Qed.

(** Further facts of binary64 arithmetic. *)

(** Two floats with the same specification are the same float. *)
Lemma Prim2SF_inj (x y : float) : Prim2SF x = Prim2SF y -> x = y.
Proof.
  intros H. rewrite <- (SF2Prim_Prim2SF x), <- (SF2Prim_Prim2SF y), H.
  reflexivity.
Qed.

Lemma float_abs_opp (z : float) :
  PrimFloat.abs (PrimFloat.opp z) = PrimFloat.abs z.
Proof.
  apply Prim2SF_inj. rewrite !abs_spec, opp_spec.
  destruct (Prim2SF z); reflexivity.
Qed.

Lemma float_nan_add_l (t : float) : PrimFloat.add nan t = nan.
Proof.
  apply Prim2SF_inj. rewrite add_spec.
  replace (Prim2SF nan) with S754_nan by (vm_compute; reflexivity).
  reflexivity.
Qed.

Lemma float_add_nan_r (t : float) : PrimFloat.add t nan = nan.
Proof.
  apply Prim2SF_inj. rewrite add_spec.
  replace (Prim2SF nan) with S754_nan by (vm_compute; reflexivity).
  destruct (Prim2SF t) as [s| s | |s m e]; try reflexivity.
Qed.

(** Two numbers (not NaN) are comparable. *)
Lemma SF_not_lt_le (x y : spec_float) :
  SFleb x x = true -> SFleb y y = true -> SFltb x y = false -> SFleb y x = true.
Proof. sf_cases. Qed.

Lemma float_not_lt_le (x y : float) :
  PrimFloat.leb x x = true -> PrimFloat.leb y y = true ->
  PrimFloat.ltb x y = false -> PrimFloat.leb y x = true.
Proof. rewrite !leb_spec, ltb_spec. apply SF_not_lt_le. Qed.

(* ===================================================================== *)
(** * Properties of the validator *)
(* ===================================================================== *)

(** The exceptions and warnings of [_check_param_limits], under the names of
    the error taxonomy of the specification: [ValueError] is its
    [InvalidInput], the [Exception]s "outside allowed range" are its
    [OutOfRange], the warnings are its [TrainingRangeWarning]. *)
Definition InvalidInput_chiA : exn :=
  ValueError "The x and y components of chiA should be zero.".
Definition InvalidInput_chiB : exn :=
  ValueError "The x and y components of chiB should be zero.".
Definition InvalidInput_q : exn :=
  ValueError "Mass ratio should be >= 1.".
Definition OutOfRange_q : exn :=
  Exception "Mass ratio outside allowed range.".
Definition OutOfRange_BhA : exn :=
  Exception "Spin magnitude of BhA outside allowed range.".
Definition OutOfRange_BhB : exn :=
  Exception "Spin magnitude of BhB outside allowed range.".
Definition TrainingRange_q : string :=
  "Mass ratio outside training range.".
Definition TrainingRange_BhA : string :=
  "Spin magnitude of BhA outside training range.".
Definition TrainingRange_BhB : string :=
  "Spin magnitude of BhB outside training range.".

Section WorldFacts.

Variable T : Type.

(** The world after one more warning. *)
Definition warned (w : world T) (msg : string) : world T :=
  {| warnings := warnings w ++ [msg]; calls := calls w |}.

Definition warned_if (b : bool) (w : world T) (msg : string) : world T :=
  if b then warned w msg else w.

(** How many times a message has been emitted. *)
Definition emitted (msg : string) (w : world T) : nat :=
  count_occ string_dec (warnings w) msg.

(** A world in which nothing has happened yet. *)
Definition fresh : world T := {| warnings := []; calls := [] |}.

Lemma emitted_warned msg m w :
  emitted msg (warned w m) =
  (emitted msg w + if string_dec m msg then 1 else 0)%nat.
Proof.
  unfold emitted, warned; cbn [warnings].
  rewrite count_occ_app; cbn [count_occ].
  destruct (string_dec m msg); reflexivity.
Qed.

Lemma emitted_warned_if msg m b w :
  emitted msg (warned_if b w m) =
  (emitted msg w + if b then if string_dec m msg then 1 else 0 else 0)%nat.
Proof.
  destruct b; cbn [warned_if]; [apply emitted_warned | lia].
Qed.

Lemma calls_warned_if b w m : calls (warned_if b w m) = calls w.
Proof. destruct b; reflexivity. Qed.

End WorldFacts.

Arguments fresh {T}.

Section ValidatorFacts.

Context {T : Type} {S : Scalar T}.
Variable R : Type.
Local Open Scope scalar_scope.

(** The check of one z-spin: the fourth and the fifth statement of the
    validator. *)
Definition spin_stage (err : exn) (msg : string) (chi : list T) (w : world T)
  : outcome R unit * world T :=
  match nth_error chi 2 with
  | None => (Raise (IndexError 2 (List.length chi)), w)
  | Some z =>
      if abs z > lit 1 then (Raise err, w)
      else (Next tt, warned_if (abs z > lit 0.81) w msg)
  end.

(** The validator without the monad: its five statements in order. *)
Lemma check_param_limits_run q chiA chiB kw w :
  @_check_param_limits T S R q chiA chiB kw w =
  if in_plane chiA > lit 1e-10 then (Raise InvalidInput_chiA, w)
  else if in_plane chiB > lit 1e-10 then (Raise InvalidInput_chiB, w)
  else if q < lit 1 then (Raise InvalidInput_q, w)
  else if q > lit 10.01 then (Raise OutOfRange_q, w)
  else
    match spin_stage OutOfRange_BhA TrainingRange_BhA chiA
            (warned_if (q > lit 8.01) w TrainingRange_q) with
    | (Next _, w2) => spin_stage OutOfRange_BhB TrainingRange_BhB chiB w2
    | other => other
    end.
Proof.
  unfold _check_param_limits, spin_stage, bind, index, warned_if, raise, warn, ret.
  repeat (cbv beta iota zeta;
          match goal with
          | |- context [if ?c then _ else _] => destruct c
          | |- context [nth_error ?l ?n] => destruct (nth_error l n)
          end); reflexivity.
Qed.

(** The validator never calls the evaluator. *)
Lemma check_param_limits_calls q chiA chiB kw w :
  calls (snd (@_check_param_limits T S R q chiA chiB kw w)) = calls w.
Proof.
  rewrite check_param_limits_run; unfold spin_stage.
  repeat match goal with
         | |- context [if ?c then _ else _] => destruct c
         | |- context [nth_error ?l ?n] => destruct (nth_error l n)
         end; cbn [snd]; rewrite ?calls_warned_if; reflexivity.
Qed.

(** A validation that falls through has read both z-spins. *)
Lemma check_param_limits_next q chiA chiB kw w w' :
  @_check_param_limits T S R q chiA chiB kw w = (Next tt, w') ->
  exists chiAz chiBz,
    nth_error chiA 2 = Some chiAz /\ nth_error chiB 2 = Some chiBz.
Proof.
  rewrite check_param_limits_run; unfold spin_stage.
  destruct (nth_error chiA 2) as [a|], (nth_error chiB 2) as [b|];
    repeat match goal with
           | |- context [if ?c then _ else _] => destruct c
           end; try discriminate; intros _; eauto.
Qed.

(** Consequences of the order laws for the thresholds of the source. *)
Context {O : ScalarOrder S}.

Lemma above_8_01_not_below_1 q : (q > lit 8.01) = true -> (q < lit 1) = false.
Proof.
  intros H. apply ltb_not_gt.
  exact (ltb_trans _ _ _ lit_1_lt_8_01 H).
Qed.

Lemma above_10_01_not_below_1 q : (q > lit 10.01) = true -> (q < lit 1) = false.
Proof.
  intros H. apply above_8_01_not_below_1.
  exact (ltb_trans _ _ _ lit_8_01_lt_10_01 H).
Qed.

Lemma upto_8_01_not_above_10_01 q :
  (q <= lit 8.01) = true -> (q > lit 10.01) = false.
Proof.
  intros H. apply ltb_not_gt.
  exact (leb_ltb_trans _ _ _ H lit_8_01_lt_10_01).
Qed.

Lemma upto_0_81_not_above_1 z : (z <= lit 0.81) = true -> (z > lit 1) = false.
Proof.
  intros H. apply ltb_not_gt.
  exact (leb_ltb_trans _ _ _ H lit_0_81_lt_1).
Qed.

End ValidatorFacts.

(* ===================================================================== *)
(** * The validator in binary64 *)
(* ===================================================================== *)

(** The validator as the program runs it, inside a function that may return
    values of type [R]. *)
Abbreviation validate R := (@_check_param_limits float Binary64.float_scalar R).

Section Binary64Validator.

Local Open Scope scalar_scope.

(** The tolerance on the in-plane magnitude. *)
Definition tol : float := lit 1e-10.


Lemma validate_run R q chiA chiB kw w :
  validate R q chiA chiB kw w =
  if in_plane chiA > tol then (Raise InvalidInput_chiA, w)
  else if in_plane chiB > tol then (Raise InvalidInput_chiB, w)
  else if q < lit 1 then (Raise InvalidInput_q, w)
  else if q > lit 10.01 then (Raise OutOfRange_q, w)
  else
    match spin_stage R OutOfRange_BhA TrainingRange_BhA chiA
            (warned_if (q > lit 8.01) w TrainingRange_q) with
    | (Next _, w2) => spin_stage R OutOfRange_BhB TrainingRange_BhB chiB w2
    | other => other
    end.
Proof. apply check_param_limits_run. Qed.

End Binary64Validator.

(** Runs the validator symbolically: every test is either decided by a
    hypothesis or split in two. *)
Ltac validator_cases :=
  rewrite validate_run; unfold spin_stage;
  repeat match goal with
         | H : ?c = _ |- context [if ?c then _ else _] => rewrite H
         | H : nth_error ?l ?n = _ |- context [nth_error ?l ?n] => rewrite H
         | |- context [if ?c then _ else _] => destruct c eqn:?
         | |- context [nth_error ?l ?n] => destruct (nth_error l n) eqn:?
         end;
  cbv beta iota; cbn [fst snd].

(** Counts the occurrences of a message among the warnings of the goal. *)
Ltac count_warnings :=
  repeat rewrite ?emitted_warned_if, ?emitted_warned;
  repeat match goal with
         | |- context [string_dec ?a ?b] =>
             let d := eval vm_compute in (if string_dec a b then true else false) in
             match d with
             | true => destruct (string_dec a b) as [_|n]; [|exfalso; apply n; reflexivity]
             | false => destruct (string_dec a b) as [e|_]; [discriminate e|]
             end
         end;
  repeat match goal with
         | H : ?c = _ |- context [if ?c then _ else _] => rewrite H
         | |- context [if ?c then _ else _] => destruct c
         end;
  try lia.

Section Binary64Claims.

Local Open Scope scalar_scope.

(** C5: the aligned-spin precondition fails with [InvalidInput] exactly when
    the in-plane magnitude [sqrt(x^2 + y^2)] of [chiA], or else that of
    [chiB], is strictly greater than [1e-10]; a magnitude of [1e-10] or less
    passes; [chiA = [0.1, 0, 0.5]] fails with [InvalidInput]. *)
Theorem in_plane_check :
  forall (R : Type) (q : float) (chiA chiB : list float) (kw : kwargs_t)
         (w : world float),
  (forall x y z : float, in_plane [x; y; z] = sqrt (x * x + y * y)) /\
  ((fst (validate R q chiA chiB kw w) = Raise InvalidInput_chiA \/
    fst (validate R q chiA chiB kw w) = Raise InvalidInput_chiB)
   <-> ((in_plane chiA > tol) = true \/ (in_plane chiB > tol) = true)) /\
  ((in_plane chiA > tol) = true ->
     validate R q chiA chiB kw w = (Raise InvalidInput_chiA, w)) /\
  ((in_plane chiA > tol) = false -> (in_plane chiB > tol) = true ->
     validate R q chiA chiB kw w = (Raise InvalidInput_chiB, w)) /\
  (forall chi : list float,
     (in_plane chi <= tol) = true -> (in_plane chi > tol) = false) /\
  (chiA = [lit 0.1; lit 0; lit 0.5] ->
     validate R q chiA chiB kw w = (Raise InvalidInput_chiA, w)).
Proof.
  intros R q chiA chiB kw w.
  split; [reflexivity|].
  split; [|split; [|split; [|split]]].
  - split.
    + destruct (in_plane chiA > tol) eqn:HA; [now left|].
      destruct (in_plane chiB > tol) eqn:HB; [now right|].
      validator_cases; intros [H|H]; discriminate H.
    + intros [H|H].
      * left. validator_cases. reflexivity.
      * destruct (in_plane chiA > tol) eqn:HA;
          [left|right]; validator_cases; reflexivity.
  - intros HA. validator_cases. reflexivity.
  - intros HA HB. validator_cases. reflexivity.
  - intros chi. apply leb_not_gt.
  - intros ->. rewrite validate_run.
    replace (in_plane [lit 0.1; lit 0; lit 0.5] > tol) with true
      by (vm_compute; reflexivity).
    reflexivity.
Qed.


(** C3: once both in-plane checks have passed, the validator raises
    [InvalidInput] if [q < 1], raises [OutOfRange] if [q > 10.01], emits the
    training-range warning for [q] exactly once and does not fail on [q] if
    [8.01 < q <= 10.01], and neither warns nor fails on [q] if
    [1 <= q <= 8.01].  So [q = 0.5] fails with [InvalidInput], [q = 9] with
    spins inside the training range succeeds with exactly one warning, and
    [q = 11] fails with [OutOfRange]. *)
Theorem q_limits :
  forall (R : Type) (q : float) (chiA chiB : list float) (kw : kwargs_t)
         (w : world float),
  (in_plane chiA > tol) = false ->
  (in_plane chiB > tol) = false ->
  ((q < lit 1) = true ->
     validate R q chiA chiB kw w = (Raise InvalidInput_q, w)) /\
  ((q > lit 10.01) = true ->
     validate R q chiA chiB kw w = (Raise OutOfRange_q, w)) /\
  ((q > lit 8.01) = true -> (q <= lit 10.01) = true ->
     fst (validate R q chiA chiB kw w) <> Raise InvalidInput_q /\
     fst (validate R q chiA chiB kw w) <> Raise OutOfRange_q /\
     emitted TrainingRange_q (snd (validate R q chiA chiB kw w))
       = Datatypes.S (emitted TrainingRange_q w)) /\
  ((lit 1 <= q) = true -> (q <= lit 8.01) = true ->
     fst (validate R q chiA chiB kw w) <> Raise InvalidInput_q /\
     fst (validate R q chiA chiB kw w) <> Raise OutOfRange_q /\
     emitted TrainingRange_q (snd (validate R q chiA chiB kw w))
       = emitted TrainingRange_q w) /\
  (q = lit 0.5 -> validate R q chiA chiB kw w = (Raise InvalidInput_q, w)) /\
  (q = lit 9 ->
     forall chiAz chiBz : float,
       nth_error chiA 2 = Some chiAz -> nth_error chiB 2 = Some chiBz ->
       (abs chiAz <= lit 0.81) = true -> (abs chiBz <= lit 0.81) = true ->
       validate R q chiA chiB kw w = (Next tt, warned w TrainingRange_q)) /\
  (q = lit 11 -> validate R q chiA chiB kw w = (Raise OutOfRange_q, w)).
Proof.
  intros R q chiA chiB kw w HA HB.
  assert (Hlow : (q < lit 1) = true ->
                 validate R q chiA chiB kw w = (Raise InvalidInput_q, w)).
  { intros Hq. validator_cases. reflexivity. }
  assert (Hhigh : (q > lit 10.01) = true ->
                  validate R q chiA chiB kw w = (Raise OutOfRange_q, w)).
  { intros Hq. pose proof (above_10_01_not_below_1 _ Hq) as Hq1.
    validator_cases. reflexivity. }
  split; [exact Hlow|]. split; [exact Hhigh|].
  split; [|split; [|split; [|split]]].
  - intros H8 H10.
    pose proof (above_8_01_not_below_1 _ H8) as Hq1.
    pose proof (leb_not_gt _ _ H10) as Hq10.
    repeat split; validator_cases; try discriminate; count_warnings.
  - intros H1 H8.
    pose proof (leb_not_gt _ _ H1) as Hq1.
    pose proof (upto_8_01_not_above_10_01 _ H8) as Hq10.
    pose proof (leb_not_gt _ _ H8) as Hq8.
    repeat split; validator_cases; try discriminate; count_warnings.
  - intros ->. apply Hlow. vm_compute; reflexivity.
  - intros -> chiAz chiBz HAz HBz HAr HBr.
    pose proof (upto_0_81_not_above_1 _ HAr) as HA1.
    pose proof (upto_0_81_not_above_1 _ HBr) as HB1.
    pose proof (leb_not_gt _ _ HAr) as HA8.
    pose proof (leb_not_gt _ _ HBr) as HB8.
    rewrite validate_run; unfold spin_stage.
    rewrite HA, HB, HAz, HBz.
    replace (lit 9 < lit 1) with false by (vm_compute; reflexivity).
    replace (lit 9 > lit 10.01) with false by (vm_compute; reflexivity).
    replace (lit 9 > lit 8.01) with true by (vm_compute; reflexivity).
    cbv beta iota. rewrite HA1, HA8. cbv beta iota. rewrite HB1, HB8.
    reflexivity.
  - intros ->. apply Hhigh. vm_compute; reflexivity.
Qed.

(** C4, as amended: once the in-plane and the [q] checks have passed, the
    validator raises [OutOfRange] if a z-spin is above [1] in absolute value
    (for [chiA[2]] first), emits the training-range warning of a spin whose
    absolute value is in (0.81, 1] without failing on it, and neither warns
    nor fails on a spin of absolute value at most 0.81.  For [chiB[2]] the
    warning is emitted provided the check of [chiA[2]] has not raised: when
    [|chiA[2]| > 1] the validator raises before it looks at [chiB[2]]. *)
Theorem spin_limits :
  forall (R : Type) (q : float) (chiA chiB : list float) (kw : kwargs_t)
         (w : world float) (chiAz chiBz : float),
  (in_plane chiA > tol) = false ->
  (in_plane chiB > tol) = false ->
  (q < lit 1) = false ->
  (q > lit 10.01) = false ->
  nth_error chiA 2 = Some chiAz ->
  nth_error chiB 2 = Some chiBz ->
  ((abs chiAz > lit 1) = true ->
     validate R q chiA chiB kw w =
     (Raise OutOfRange_BhA, warned_if (q > lit 8.01) w TrainingRange_q)) /\
  ((abs chiAz > lit 0.81) = true -> (abs chiAz <= lit 1) = true ->
     fst (validate R q chiA chiB kw w) <> Raise OutOfRange_BhA /\
     emitted TrainingRange_BhA (snd (validate R q chiA chiB kw w))
       = Datatypes.S (emitted TrainingRange_BhA w)) /\
  ((abs chiAz <= lit 0.81) = true ->
     fst (validate R q chiA chiB kw w) <> Raise OutOfRange_BhA /\
     emitted TrainingRange_BhA (snd (validate R q chiA chiB kw w))
       = emitted TrainingRange_BhA w) /\
  ((abs chiBz > lit 1) = true ->
     (fst (validate R q chiA chiB kw w) = Raise OutOfRange_BhA \/
      fst (validate R q chiA chiB kw w) = Raise OutOfRange_BhB) /\
     ((abs chiAz > lit 1) = false ->
      fst (validate R q chiA chiB kw w) = Raise OutOfRange_BhB)) /\
  ((abs chiBz > lit 0.81) = true -> (abs chiBz <= lit 1) = true ->
   (abs chiAz > lit 1) = false ->
     fst (validate R q chiA chiB kw w) = Next tt /\
     emitted TrainingRange_BhB (snd (validate R q chiA chiB kw w))
       = Datatypes.S (emitted TrainingRange_BhB w)) /\
  ((abs chiBz <= lit 0.81) = true ->
     fst (validate R q chiA chiB kw w) <> Raise OutOfRange_BhB /\
     emitted TrainingRange_BhB (snd (validate R q chiA chiB kw w))
       = emitted TrainingRange_BhB w).
Proof.
  intros R q chiA chiB kw w chiAz chiBz HA HB Hq1 Hq10 HAz HBz.
  split; [|split; [|split; [|split; [|split]]]].
  - intros H. validator_cases. reflexivity.
  - intros H8 H1. pose proof (leb_not_gt _ _ H1) as H1'.
    split; validator_cases; try discriminate; count_warnings.
  - intros H8. pose proof (upto_0_81_not_above_1 _ H8) as H1'.
    pose proof (leb_not_gt _ _ H8) as H8'.
    split; validator_cases; try discriminate; count_warnings.
  - intros H. split.
    + validator_cases; [left|right]; reflexivity.
    + intros HA1. validator_cases. reflexivity.
  - intros H8 H1 HA1. pose proof (leb_not_gt _ _ H1) as H1'.
    split; validator_cases; try reflexivity; count_warnings.
  - intros H8. pose proof (upto_0_81_not_above_1 _ H8) as H1'.
    pose proof (leb_not_gt _ _ H8) as H8'.
    split; validator_cases; try discriminate; count_warnings.
Qed.

(** C6, as amended: for [chiA = [1e-9, 1e-9, 0.5]] the in-plane magnitude,
    about 1.414e-9, is above the tolerance [1e-10], and the validator raises
    [InvalidInput] for [chiA], whatever [q] and [chiB] are. *)
Theorem in_plane_1e_9_rejected :
  forall (R : Type) (q : float) (chiB : list float) (kw : kwargs_t)
         (w : world float),
  validate R q [lit 1e-9; lit 1e-9; lit 0.5] chiB kw w
  = (Raise InvalidInput_chiA, w).
Proof.
  intros R q chiB kw w. rewrite validate_run.
  replace (in_plane [lit 1e-9; lit 1e-9; lit 0.5] > tol) with true
    by (vm_compute; reflexivity).
  reflexivity.
Qed.

(** C9: the first hard violation decides the exception, in the order chiA
    in-plane, chiB in-plane, [q], chiA z-spin, chiB z-spin, whatever the
    later checks would say; a check that only warns does not stop the later
    ones, so that a call with [8.01 < q <= 10.01] and both z-spins in
    (0.81, 1] emits three warnings and succeeds. *)
Theorem first_violation_wins :
  forall (R : Type) (q : float) (chiA chiB : list float) (kw : kwargs_t)
         (w : world float),
  ((in_plane chiA > tol) = true ->
     validate R q chiA chiB kw w = (Raise InvalidInput_chiA, w)) /\
  ((in_plane chiA > tol) = false ->
   ((in_plane chiB > tol) = true ->
      validate R q chiA chiB kw w = (Raise InvalidInput_chiB, w)) /\
   ((in_plane chiB > tol) = false ->
    ((q < lit 1) = true ->
       validate R q chiA chiB kw w = (Raise InvalidInput_q, w)) /\
    ((q < lit 1) = false -> (q > lit 10.01) = true ->
       validate R q chiA chiB kw w = (Raise OutOfRange_q, w)) /\
    ((q < lit 1) = false -> (q > lit 10.01) = false ->
     forall chiAz : float, nth_error chiA 2 = Some chiAz ->
     let w1 := warned_if (q > lit 8.01) w TrainingRange_q in
     ((abs chiAz > lit 1) = true ->
        validate R q chiA chiB kw w = (Raise OutOfRange_BhA, w1)) /\
     ((abs chiAz > lit 1) = false ->
      forall chiBz : float, nth_error chiB 2 = Some chiBz ->
      let w2 := warned_if (abs chiAz > lit 0.81) w1 TrainingRange_BhA in
      ((abs chiBz > lit 1) = true ->
         validate R q chiA chiB kw w = (Raise OutOfRange_BhB, w2)) /\
      ((abs chiBz > lit 1) = false ->
         validate R q chiA chiB kw w =
         (Next tt, warned_if (abs chiBz > lit 0.81) w2 TrainingRange_BhB)) /\
      ((q > lit 8.01) = true -> (q <= lit 10.01) = true ->
       (abs chiAz > lit 0.81) = true -> (abs chiAz <= lit 1) = true ->
       (abs chiBz > lit 0.81) = true -> (abs chiBz <= lit 1) = true ->
         validate R q chiA chiB kw w =
         (Next tt,
          {| warnings := warnings w ++ [TrainingRange_q; TrainingRange_BhA;
                                        TrainingRange_BhB];
             calls := calls w |})))))).
Proof.
  intros R q chiA chiB kw w.
  split; [intros HA; validator_cases; reflexivity|].
  intros HA.
  split; [intros HB; validator_cases; reflexivity|].
  intros HB.
  split; [intros Hq; validator_cases; reflexivity|].
  split; [intros Hq1 Hq10; validator_cases; reflexivity|].
  intros Hq1 Hq10 chiAz HAz w1.
  split; [intros HA1; subst w1; validator_cases; reflexivity|].
  intros HA1 chiBz HBz w2.
  split; [intros HB1; subst w2 w1; validator_cases; reflexivity|].
  split; [intros HB1; subst w2 w1; validator_cases; reflexivity|].
  intros H8 _ HA8 _ HB8 HBle.
  pose proof (leb_not_gt _ _ HBle) as HB1.
  rewrite validate_run; unfold spin_stage.
  rewrite HA, HB, Hq1, Hq10, HAz, HA1, H8, HA8. cbv beta iota.
  rewrite HBz, HB1, HB8.
  unfold warned_if, warned; cbn [warnings calls].
  rewrite <- !app_assoc. reflexivity.
Qed.

End Binary64Claims.

(** C4 as it was stated fails on this input: the in-plane and the [q] checks
    pass and [|chiB[2]| = 0.9] is in (0.81, 1], but [|chiA[2]| = 2] makes the
    validator raise before it reaches [chiB[2]], and no warning is emitted
    for [chiB]. *)
Lemma spin_warning_preempted :
  (in_plane [lit 0; lit 0; lit 2] > tol)%sc = false /\
  (in_plane [lit 0; lit 0; lit 0.9] > tol)%sc = false /\
  ((lit 2 : float) < lit 1)%sc = false /\
  ((lit 2 : float) > lit 10.01)%sc = false /\
  (abs (lit 0.9 : float) > lit 0.81)%sc = true /\
  (abs (lit 0.9 : float) <= lit 1)%sc = true /\
  validate unit (lit 2) [lit 0; lit 0; lit 2] [lit 0; lit 0; lit 0.9] [] fresh
  = (Raise OutOfRange_BhA, fresh) /\
  emitted TrainingRange_BhB
    (snd (validate unit (lit 2) [lit 0; lit 0; lit 2] [lit 0; lit 0; lit 0.9]
            [] fresh)) = 0%nat.
Proof. repeat split; vm_compute; reflexivity. Qed.

(** C6 as it was stated fails: with [q = 2] in the valid range and
    [chiB = [0, 0, 0]] exactly aligned, [chiA = [1e-9, 1e-9, 0.5]] does not
    pass the in-plane check. *)
Lemma in_plane_1e_9_does_not_pass :
  validate unit (lit 2) [lit 1e-9; lit 1e-9; lit 0.5] [lit 0; lit 0; lit 0]
    [] fresh
  = (Raise InvalidInput_chiA, fresh) /\
  (in_plane [lit 1e-9; lit 1e-9; lit 0.5] > tol)%sc = true.
Proof. split; vm_compute; reflexivity. Qed.

(* ===================================================================== *)
(** * Properties of the parameter mapper *)
(* ===================================================================== *)

Lemma SF_above_positive (z x y : spec_float) :
  SFltb z x = true -> SFleb x y = true ->
  SFeqb y z = false /\ SFltb y z = false.
Proof. unfold SFeqb. sf_cases; split; reflexivity. Qed.

(** A float that is at least 1 is neither zero nor negative. *)
Lemma float_ge_1_positive (q : float) :
  PrimFloat.leb (lit 1) q = true ->
  PrimFloat.eqb q 0 = false /\ PrimFloat.ltb q 0 = false.
Proof.
  rewrite leb_spec, eqb_spec, ltb_spec. apply SF_above_positive.
  vm_compute. reflexivity.
Qed.

(** The two zeros. *)
Lemma float_eqb_zero (x : float) :
  PrimFloat.eqb x 0 = true -> x = 0%float \/ x = (-0)%float.
Proof.
  rewrite eqb_spec. destruct (Prim2SF x) as [s|s| |s m e] eqn:E;
    try (destruct s; discriminate); try discriminate; intros _.
  destruct s; [right|left]; apply Prim2SF_inj; rewrite E; reflexivity.
Qed.

(** The square of a zero is [0.0], without a call of [pow]. *)
Lemma pow2_zero (libm_pow : float -> float -> float * bool) (x : float) :
  PrimFloat.eqb x 0 = true -> PyFloat.pow2 libm_pow x = inr 0%float.
Proof.
  intros H. destruct (@float_eqb_zero x H) as [->| ->]; reflexivity.
Qed.

(** A stand-in for [pow] at the exponent 2 in closed examples: the correctly
    rounded square, with no range error reported.  It has the value of every
    [pow] where the square is a float or overflows. *)
Definition square_pow (x y : float) : float * bool := (PrimFloat.mul x x, false).

(** A stand-in for the value of [np.log] in closed examples; it has the value
    of the logarithm at 1. *)
Definition log_stand_in (x : float) : float := PrimFloat.sub x 1.

Section MapperClaims.

Local Open Scope scalar_scope.

Variable libm_pow : float -> float -> float * bool.
Variable np_log : float -> float.

(** The mapper on three floats, once [(1.+q)**2] has the value [sq]. *)
Lemma get_fit_params_run (q chiAz chiBz sq : float) (fit_key : string)
    (w : world float) :
  PyFloat.pow2 libm_pow (lit 1 + q) = inr sq ->
  _get_fit_params libm_pow np_log [q; chiAz; chiBz] fit_key w =
  if PrimFloat.eqb sq 0 then (Error ZeroDivisionError, w)
  else
    let eta := q / sq in
    let chi_wtAvg := (q * chiAz + chiBz) / (lit 1 + q) in
    if PrimFloat.eqb (lit 1 - lit 76 * eta / lit 113) 0
    then (Error ZeroDivisionError, w)
    else
      call (logq <- numpy_log np_log q ;;
            return_ [logq;
                     (chi_wtAvg - lit 38 * eta / lit 113 * (chiAz + chiBz))
                     / (lit 1 - lit 76 * eta / lit 113);
                     (chiAz - chiBz) / lit 2])%py w.
Proof.
  intros Hsq. unfold _get_fit_params.
  unfold call, bind at 1. rewrite Hsq. cbn [lift ret].
  unfold bind at 1, PyFloat.div at 1.
  destruct (PrimFloat.eqb sq 0) eqn:Hz; [reflexivity|]. cbn [lift ret].
  assert (H1 : PrimFloat.eqb (lit 1 + q) 0 = false).
  { destruct (PrimFloat.eqb (lit 1 + q) 0) eqn:E; [|reflexivity].
    rewrite (@pow2_zero libm_pow _ E) in Hsq. injection Hsq as <-.
    discriminate Hz. }
  unfold bind at 1, PyFloat.div at 1. rewrite H1. cbn [lift ret].
  unfold bind at 1, PyFloat.div at 1.
  replace (PrimFloat.eqb (lit 113) 0) with false by reflexivity.
  cbn [lift ret].
  unfold bind at 1, PyFloat.div at 1.
  replace (PrimFloat.eqb (lit 113) 0) with false by reflexivity.
  cbn [lift ret].
  unfold bind at 1, PyFloat.div at 1.
  cbn [add sub mul div Binary64.float_scalar].
  destruct (lit 1 - lit 76 * (q / sq) / lit 113 =? 0)%float eqn:Hd;
    [reflexivity|]. cbn [lift ret].
  unfold bind at 1, PyFloat.div at 1.
  replace (PrimFloat.eqb (lit 2) 0) with false by reflexivity.
  cbn [lift ret]. reflexivity.
Qed.


End MapperClaims.


(* ===================================================================== *)
(** * Properties of the dispatcher *)
(* ===================================================================== *)

(** Runs the dispatch as far as the next call of the evaluator. *)
Ltac dispatch :=
  cbv beta iota zeta
      delta [call bind _evaluate_fits log_call ret return_ raise local
             String.eqb Ascii.eqb Bool.eqb orb];
  cbn [warnings calls].

Section DispatcherClaims.

Context {T : Type} {S : Scalar T}.
Variable evaluator : string -> list T -> T * T.

Local Open Scope string_scope.

(** The dispatcher after a validation and an option check that passed: what
    is left is the dispatch on [fit_key]. *)
Lemma eval_wrapper_validated q chiA chiB kwargs w w' :
  @_check_param_limits T S (value T) q chiA chiB kwargs w = (Next tt, w') ->
  @_check_unused_kwargs T (value T) kwargs w' = (Next tt, w') ->
  exists chiAz chiBz,
    nth_error chiA 2 = Some chiAz /\ nth_error chiB 2 = Some chiBz /\
    calls w' = calls w /\
    forall k : T -> T -> M T (value T) unit,
      call (_check_param_limits q chiA chiB kwargs ;;
            _check_unused_kwargs kwargs ;;
            chiAz <- index chiA 2 ;;
            chiBz <- index chiB 2 ;;
            k chiAz chiBz)%py w
      = call (k chiAz chiBz) w'.
Proof.
  intros Hv Hk.
  destruct (check_param_limits_next _ _ _ _ _ Hv) as (a & b & Ha & Hb).
  exists a, b. split; [exact Ha|]. split; [exact Hb|]. split.
  - rewrite <- (check_param_limits_calls (value T) q chiA chiB kwargs w), Hv.
    reflexivity.
  - intros k. unfold call, bind at 1. rewrite Hv.
    unfold bind at 1. rewrite Hk.
    unfold bind at 1, index at 1. rewrite Ha. unfold ret at 1.
    unfold bind at 1, index at 1. rewrite Hb. unfold ret at 1.
    reflexivity.
Qed.

(** C2: after a validation and an option check that passed, [fit_key = 'all']
    calls the evaluator exactly four times, for 'mC', 'chiCz', 'velCx' and
    'velCy' in this order, and returns the tuple
    [(mC, chiC, velC, mC_err, chiC_err, velC_err)] in which the x and y
    components of the spin and of its error, and the z component of the kick
    and of its error, are 0 whatever the evaluator returns. *)
Theorem eval_wrapper_all :
  forall (q : T) (chiA chiB : list T) (kwargs : kwargs_t) (w w' : world T),
  @_check_param_limits T S (value T) q chiA chiB kwargs w = (Next tt, w') ->
  @_check_unused_kwargs T (value T) kwargs w' = (Next tt, w') ->
  exists chiAz chiBz : T,
    nth_error chiA 2 = Some chiAz /\ nth_error chiB 2 = Some chiBz /\
    forall (x : list T) (mC mC_err chiCz chiCz_err velCx velCx_err
            velCy velCy_err : T),
      x = [q; chiAz; chiBz] ->
      evaluator "mC" x = (mC, mC_err) ->
      evaluator "chiCz" x = (chiCz, chiCz_err) ->
      evaluator "velCx" x = (velCx, velCx_err) ->
      evaluator "velCy" x = (velCy, velCy_err) ->
      _eval_wrapper evaluator "all" q chiA chiB kwargs w =
      (Value (Some (Tuple [Num mC;
                           Arr [lit 0; lit 0; chiCz];
                           Arr [velCx; velCy; lit 0];
                           Num mC_err;
                           Arr [lit 0; lit 0; chiCz_err];
                           Arr [velCx_err; velCy_err; lit 0]])),
       {| warnings := warnings w';
          calls := calls w ++ [("mC", x); ("chiCz", x);
                               ("velCx", x); ("velCy", x)] |}).
Proof.
  intros q chiA chiB kwargs w w' Hv Hk.
  edestruct eval_wrapper_validated
    as (a & b & Ha & Hb & Hc & Hrun); [exact Hv | exact Hk |].
  exists a, b. split; [exact Ha|]. split; [exact Hb|].
  intros x mC mC_err chiCz chiCz_err velCx velCx_err velCy velCy_err
         -> HmC HchiCz HvelCx HvelCy.
  unfold _eval_wrapper. rewrite Hrun.
  dispatch. rewrite HmC. dispatch. rewrite HchiCz. dispatch.
  rewrite HvelCx. dispatch. rewrite HvelCy. dispatch.
  rewrite Hc, <- !app_assoc. reflexivity.
Qed.

(** C7: after a validation and an option check that passed, 'mC' makes one
    evaluator call ('mC') and returns [(mC, mC_err)]; 'chiC' makes one call
    ('chiCz') and returns [((0, 0, chiCz), (0, 0, chiCz_err))]; 'velC' makes
    two calls ('velCx', then 'velCy') and returns
    [((velCx, velCy, 0), (velCx_err, velCy_err, 0))]; the zero components do
    not depend on the evaluator. *)
Theorem eval_wrapper_single :
  forall (q : T) (chiA chiB : list T) (kwargs : kwargs_t) (w w' : world T),
  @_check_param_limits T S (value T) q chiA chiB kwargs w = (Next tt, w') ->
  @_check_unused_kwargs T (value T) kwargs w' = (Next tt, w') ->
  exists chiAz chiBz : T,
    nth_error chiA 2 = Some chiAz /\ nth_error chiB 2 = Some chiBz /\
    forall x : list T, x = [q; chiAz; chiBz] ->
      (forall mC mC_err : T,
         evaluator "mC" x = (mC, mC_err) ->
         _eval_wrapper evaluator "mC" q chiA chiB kwargs w =
         (Value (Some (Tuple [Num mC; Num mC_err])),
          {| warnings := warnings w'; calls := calls w ++ [("mC", x)] |})) /\
      (forall chiCz chiCz_err : T,
         evaluator "chiCz" x = (chiCz, chiCz_err) ->
         _eval_wrapper evaluator "chiC" q chiA chiB kwargs w =
         (Value (Some (Tuple [Arr [lit 0; lit 0; chiCz];
                              Arr [lit 0; lit 0; chiCz_err]])),
          {| warnings := warnings w'; calls := calls w ++ [("chiCz", x)] |})) /\
      (forall velCx velCx_err velCy velCy_err : T,
         evaluator "velCx" x = (velCx, velCx_err) ->
         evaluator "velCy" x = (velCy, velCy_err) ->
         _eval_wrapper evaluator "velC" q chiA chiB kwargs w =
         (Value (Some (Tuple [Arr [velCx; velCy; lit 0];
                              Arr [velCx_err; velCy_err; lit 0]])),
          {| warnings := warnings w';
             calls := calls w ++ [("velCx", x); ("velCy", x)] |})).
Proof.
  intros q chiA chiB kwargs w w' Hv Hk.
  edestruct eval_wrapper_validated
    as (a & b & Ha & Hb & Hc & Hrun); [exact Hv | exact Hk |].
  exists a, b. split; [exact Ha|]. split; [exact Hb|].
  intros x ->. unfold _eval_wrapper. rewrite !Hrun.
  split; [|split].
  - intros mC mC_err HmC.
    dispatch. rewrite HmC. dispatch. rewrite Hc. reflexivity.
  - intros chiCz chiCz_err HchiCz.
    dispatch. rewrite HchiCz. dispatch. rewrite Hc. reflexivity.
  - intros velCx velCx_err velCy velCy_err HvelCx HvelCy.
    dispatch. rewrite HvelCx. dispatch. rewrite HvelCy. dispatch.
    rewrite Hc, <- !app_assoc. reflexivity.
Qed.

(** C8: a call whose validation raises, or which passes a keyword option,
    raises before any evaluator call: the caller gets the exception and no
    value, and the call log is unchanged.  The validation runs first: its
    exception is the one raised even when options were passed. *)
Theorem eval_wrapper_fails_early :
  forall (fit_key : string) (q : T) (chiA chiB : list T) (kwargs : kwargs_t)
         (w : world T),
  (forall (e : exn) (w' : world T),
     @_check_param_limits T S (value T) q chiA chiB kwargs w = (Raise e, w') ->
     _eval_wrapper evaluator fit_key q chiA chiB kwargs w = (Error e, w') /\
     calls w' = calls w) /\
  (forall w' : world T,
     @_check_param_limits T S (value T) q chiA chiB kwargs w = (Next tt, w') ->
     kwargs <> [] ->
     _eval_wrapper evaluator fit_key q chiA chiB kwargs w =
     (Error (UnsupportedOption (map fst kwargs)), w') /\
     calls w' = calls w).
Proof.
  intros fit_key q chiA chiB kwargs w.
  pose proof (check_param_limits_calls (value T) q chiA chiB kwargs w) as Hc.
  split.
  - intros e w' Hv. rewrite Hv in Hc. split; [|exact Hc].
    unfold _eval_wrapper, call, bind at 1. rewrite Hv. reflexivity.
  - intros w' Hv Hk. rewrite Hv in Hc. split; [|exact Hc].
    unfold _eval_wrapper, call, bind at 1. rewrite Hv.
    unfold bind at 1. destruct kwargs as [|kv kwargs']; [now elim Hk|].
    reflexivity.
Qed.

(** C10: with a [fit_key] other than 'mC', 'chiC', 'velC' and 'all', after a
    validation and an option check that passed, no branch of the dispatch is
    taken: the evaluator is not called and the function returns [None]. *)
Theorem eval_wrapper_unknown_key :
  forall (fit_key : string) (q : T) (chiA chiB : list T) (kwargs : kwargs_t)
         (w w' : world T),
  fit_key <> "mC" -> fit_key <> "chiC" -> fit_key <> "velC" ->
  fit_key <> "all" ->
  @_check_param_limits T S (value T) q chiA chiB kwargs w = (Next tt, w') ->
  @_check_unused_kwargs T (value T) kwargs w' = (Next tt, w') ->
  _eval_wrapper evaluator fit_key q chiA chiB kwargs w = (Value None, w') /\
  calls w' = calls w.
Proof.
  intros fit_key q chiA chiB kwargs w w' HmC HchiC HvelC Hall Hv Hk.
  edestruct eval_wrapper_validated
    as (a & b & Ha & Hb & Hc & Hrun); [exact Hv | exact Hk |].
  split; [|exact Hc].
  unfold _eval_wrapper. rewrite Hrun.
  apply String.eqb_neq in HmC, HchiC, HvelC, Hall.
  rewrite HmC, HchiC, HvelC, Hall.
  reflexivity.
Qed.

End DispatcherClaims.

(* ===================================================================== *)
(** * The properties at concrete inputs *)
(* ===================================================================== *)

Section ConcreteInputs.

Local Open Scope string_scope.

(** A stand-in for the fit evaluator: every fit has value 0.95 and error
    0.001. *)
Definition mock_evaluator (fit_key : string) (x : list float) : float * float :=
  (lit 0.95, lit 0.001).


(** The call [all(q=4.3, chiA=[0,0,0.6], chiB=[0,0,-0.7])] of the
    specification. *)
Lemma eval_wrapper_all_witness :
  exists chiAz chiBz : float,
    nth_error [lit 0; lit 0; lit 0.6] 2 = Some chiAz /\
    nth_error [lit 0; lit 0; lit (-0.7)] 2 = Some chiBz /\
    forall (x : list float) (mC mC_err chiCz chiCz_err velCx velCx_err
            velCy velCy_err : float),
      x = [lit 4.3; chiAz; chiBz] ->
      mock_evaluator "mC" x = (mC, mC_err) ->
      mock_evaluator "chiCz" x = (chiCz, chiCz_err) ->
      mock_evaluator "velCx" x = (velCx, velCx_err) ->
      mock_evaluator "velCy" x = (velCy, velCy_err) ->
      _eval_wrapper mock_evaluator "all" (lit 4.3) [lit 0; lit 0; lit 0.6]
        [lit 0; lit 0; lit (-0.7)] [] fresh =
      (Value (Some (Tuple [Num mC;
                           Arr [lit 0; lit 0; chiCz];
                           Arr [velCx; velCy; lit 0];
                           Num mC_err;
                           Arr [lit 0; lit 0; chiCz_err];
                           Arr [velCx_err; velCy_err; lit 0]])),
       {| warnings := warnings (@fresh float);
          calls := calls (@fresh float) ++ [("mC", x); ("chiCz", x);
                                   ("velCx", x); ("velCy", x)] |}).
Proof.
  apply (@eval_wrapper_all float Binary64.float_scalar mock_evaluator
           (lit 4.3) [lit 0; lit 0; lit 0.6] [lit 0; lit 0; lit (-0.7)] []
           fresh fresh);
    vm_compute; reflexivity.
Defined.

(** [q = 9] with both z-spins at 0.5. *)
Lemma q_limits_witness :
  validate unit (lit 9) [lit 0; lit 0; lit 0.5] [lit 0; lit 0; lit 0.5] []
    fresh
  = (Next tt, warned fresh TrainingRange_q).
Proof.
  assert (HA : (in_plane [lit 0; lit 0; lit 0.5] > tol)%sc = false)
    by (vm_compute; reflexivity).
  destruct (@q_limits unit (lit 9) [lit 0; lit 0; lit 0.5]
              [lit 0; lit 0; lit 0.5] [] fresh HA HA)
    as (_ & _ & _ & _ & _ & H9 & _).
  apply (H9 eq_refl (lit 0.5) (lit 0.5)); vm_compute; reflexivity.
Defined.

(** [q = 2], [chiA[2] = 0.9] inside the warning band, [chiB[2] = 0.5]. *)
Lemma spin_limits_witness :
  fst (validate unit (lit 2) [lit 0; lit 0; lit 0.9] [lit 0; lit 0; lit 0.5]
         [] fresh) <> Raise OutOfRange_BhA /\
  emitted TrainingRange_BhA
    (snd (validate unit (lit 2) [lit 0; lit 0; lit 0.9]
            [lit 0; lit 0; lit 0.5] [] fresh))
  = Datatypes.S (emitted TrainingRange_BhA (@fresh float)).
Proof.
  assert (HA : (in_plane [lit 0; lit 0; lit 0.9] > tol)%sc = false)
    by (vm_compute; reflexivity).
  assert (HB : (in_plane [lit 0; lit 0; lit 0.5] > tol)%sc = false)
    by (vm_compute; reflexivity).
  assert (Hq1 : ((lit 2 : float) < lit 1)%sc = false)
    by (vm_compute; reflexivity).
  assert (Hq10 : ((lit 2 : float) > lit 10.01)%sc = false)
    by (vm_compute; reflexivity).
  destruct (@spin_limits unit (lit 2) [lit 0; lit 0; lit 0.9]
              [lit 0; lit 0; lit 0.5] [] fresh (lit 0.9) (lit 0.5)
              HA HB Hq1 Hq10 eq_refl eq_refl)
    as (_ & Hband & _).
  apply Hband; vm_compute; reflexivity.
Defined.

(** [chiA = [0.1, 0, 0.5]]. *)
Lemma in_plane_check_witness :
  validate unit (lit 2) [lit 0.1; lit 0; lit 0.5] [lit 0; lit 0; lit 0] []
    fresh
  = (Raise InvalidInput_chiA, fresh).
Proof.
  destruct (in_plane_check unit (lit 2) [lit 0.1; lit 0; lit 0.5]
              [lit 0; lit 0; lit 0] [] fresh)
    as (_ & _ & _ & _ & _ & H).
  apply H. reflexivity.
Defined.

(** The three single fits at [q = 4.3], [chiA = [0,0,0.6]], [chiB =
    [0,0,-0.7]]. *)
Lemma eval_wrapper_single_witness :
  exists chiAz chiBz : float,
    nth_error [lit 0; lit 0; lit 0.6] 2 = Some chiAz /\
    nth_error [lit 0; lit 0; lit (-0.7)] 2 = Some chiBz /\
    forall x : list float, x = [lit 4.3; chiAz; chiBz] ->
      (forall mC mC_err : float,
         mock_evaluator "mC" x = (mC, mC_err) ->
         _eval_wrapper mock_evaluator "mC" (lit 4.3) [lit 0; lit 0; lit 0.6]
           [lit 0; lit 0; lit (-0.7)] [] fresh =
         (Value (Some (Tuple [Num mC; Num mC_err])),
          {| warnings := warnings (@fresh float);
             calls := calls (@fresh float) ++ [("mC", x)] |})) /\
      (forall chiCz chiCz_err : float,
         mock_evaluator "chiCz" x = (chiCz, chiCz_err) ->
         _eval_wrapper mock_evaluator "chiC" (lit 4.3) [lit 0; lit 0; lit 0.6]
           [lit 0; lit 0; lit (-0.7)] [] fresh =
         (Value (Some (Tuple [Arr [lit 0; lit 0; chiCz];
                              Arr [lit 0; lit 0; chiCz_err]])),
          {| warnings := warnings (@fresh float);
             calls := calls (@fresh float) ++ [("chiCz", x)] |})) /\
      (forall velCx velCx_err velCy velCy_err : float,
         mock_evaluator "velCx" x = (velCx, velCx_err) ->
         mock_evaluator "velCy" x = (velCy, velCy_err) ->
         _eval_wrapper mock_evaluator "velC" (lit 4.3) [lit 0; lit 0; lit 0.6]
           [lit 0; lit 0; lit (-0.7)] [] fresh =
         (Value (Some (Tuple [Arr [velCx; velCy; lit 0];
                              Arr [velCx_err; velCy_err; lit 0]])),
          {| warnings := warnings (@fresh float);
             calls := calls (@fresh float) ++ [("velCx", x); ("velCy", x)] |})).
Proof.
  apply (@eval_wrapper_single float Binary64.float_scalar mock_evaluator
           (lit 4.3) [lit 0; lit 0; lit 0.6] [lit 0; lit 0; lit (-0.7)] []
           fresh fresh);
    vm_compute; reflexivity.
Defined.

(** A call with the option [foo] on inputs that pass the validation, and a
    call with [q = 0.5] and the same option. *)
Lemma eval_wrapper_fails_early_witness :
  (_eval_wrapper mock_evaluator "mC" (lit 4.3) [lit 0; lit 0; lit 0.6]
     [lit 0; lit 0; lit (-0.7)] [("foo", Num (lit 1))] fresh
   = (Error (UnsupportedOption ["foo"]), fresh) /\
   calls (@fresh float) = calls (@fresh float)) /\
  (_eval_wrapper mock_evaluator "mC" (lit 0.5) [lit 0; lit 0; lit 0.6]
     [lit 0; lit 0; lit (-0.7)] [("foo", Num (lit 1))] fresh
   = (Error InvalidInput_q, fresh) /\
   calls (@fresh float) = calls (@fresh float)).
Proof.
  split.
  - apply (proj2 (@eval_wrapper_fails_early float Binary64.float_scalar
                    mock_evaluator "mC" (lit 4.3) [lit 0; lit 0; lit 0.6]
                    [lit 0; lit 0; lit (-0.7)] [("foo", Num (lit 1))] fresh)
                 fresh).
    + vm_compute; reflexivity.
    + discriminate.
  - apply (proj1 (@eval_wrapper_fails_early float Binary64.float_scalar
                    mock_evaluator "mC" (lit 0.5) [lit 0; lit 0; lit 0.6]
                    [lit 0; lit 0; lit (-0.7)] [("foo", Num (lit 1))] fresh)
                 InvalidInput_q fresh).
    vm_compute; reflexivity.
Defined.

(** [q = 9], [chiA[2] = 0.9], [chiB[2] = -0.9]: three warnings. *)
Lemma first_violation_wins_witness :
  validate unit (lit 9) [lit 0; lit 0; lit 0.9] [lit 0; lit 0; lit (-0.9)] []
    fresh
  = (Next tt,
     {| warnings := warnings (@fresh float) ++ [TrainingRange_q; TrainingRange_BhA;
                                       TrainingRange_BhB];
        calls := calls (@fresh float) |}).
Proof.
  destruct (first_violation_wins unit (lit 9) [lit 0; lit 0; lit 0.9]
              [lit 0; lit 0; lit (-0.9)] [] fresh) as (_ & H).
  assert (HA : (in_plane [lit 0; lit 0; lit 0.9] > tol)%sc = false)
    by (vm_compute; reflexivity).
  destruct (H HA) as (_ & H').
  assert (HB : (in_plane [lit 0; lit 0; lit (-0.9)] > tol)%sc = false)
    by (vm_compute; reflexivity).
  destruct (H' HB) as (_ & _ & H'').
  assert (Hq1 : ((lit 9 : float) < lit 1)%sc = false)
    by (vm_compute; reflexivity).
  assert (Hq10 : ((lit 9 : float) > lit 10.01)%sc = false)
    by (vm_compute; reflexivity).
  destruct (H'' Hq1 Hq10 (lit 0.9) eq_refl) as (_ & HAz).
  assert (HA1 : (abs (lit 0.9 : float) > lit 1)%sc = false)
    by (vm_compute; reflexivity).
  destruct (HAz HA1 (lit (-0.9)) eq_refl) as (_ & _ & Hthree).
  apply Hthree; vm_compute; reflexivity.
Defined.

(** The key 'foo'. *)
Lemma eval_wrapper_unknown_key_witness :
  _eval_wrapper mock_evaluator "foo" (lit 4.3) [lit 0; lit 0; lit 0.6]
    [lit 0; lit 0; lit (-0.7)] [] fresh
  = (Value None, fresh) /\
  calls (@fresh float) = calls (@fresh float).
Proof.
  apply (@eval_wrapper_unknown_key float Binary64.float_scalar mock_evaluator
           "foo" (lit 4.3) [lit 0; lit 0; lit 0.6] [lit 0; lit 0; lit (-0.7)]
           [] fresh fresh);
    try discriminate; vm_compute; reflexivity.
Defined.

End ConcreteInputs.

(* ===================================================================== *)
(** * More about the validator *)
(* ===================================================================== *)

(** ** What the validator accepts *)

Section WorldGrowth.

Variable T : Type.

Lemma warnings_warned_if (b : bool) (w : world T) (m : string) :
  warnings (warned_if b w m) = warnings w ++ (if b then [m] else []).
Proof. destruct b; cbn; [reflexivity | now rewrite app_nil_r]. Qed.

(** A world that has received a warning is not the world before it. *)
Lemma warned_grows (w w' : world T) (m : string) (ws : list string) :
  warnings w' = warnings w ++ m :: ws -> w' <> w.
Proof.
  intros H E. subst w'. apply (f_equal (@List.length string)) in H.
  rewrite length_app in H. cbn in H. lia.
Qed.

End WorldGrowth.

Section Binary64Acceptance.

Local Open Scope scalar_scope.

Lemma lit_number (c : Q) :
  ((lit c : float) <= lit c) = true -> forall x : float,
  (x <= x) = true -> (x > lit c) = false -> (x <= lit c) = true.
Proof. intros Hc x Hx H. now apply float_not_lt_le. Qed.

(** The allowed limits of the docstring: for spins that are aligned within
    the tolerance and have a z-component, and for [q], [|chiAz|], [|chiBz|]
    that are numbers (not NaN), the validation succeeds exactly when
    [1 <= q <= 10.01], [|chiAz| <= 1] and [|chiBz| <= 1]. *)
Theorem validation_succeeds_iff_allowed :
  forall (R : Type) (q : float) (chiA chiB : list float) (kw : kwargs_t)
         (w : world float) (chiAz chiBz : float),
  (in_plane chiA > tol) = false ->
  (in_plane chiB > tol) = false ->
  nth_error chiA 2 = Some chiAz ->
  nth_error chiB 2 = Some chiBz ->
  (q <= q) = true ->
  (abs chiAz <= abs chiAz) = true ->
  (abs chiBz <= abs chiBz) = true ->
  (fst (validate R q chiA chiB kw w) = Next tt <->
  (lit 1 <= q) = true /\ (q <= lit 10.01) = true /\
  (abs chiAz <= lit 1) = true /\ (abs chiBz <= lit 1) = true).
Proof.
  intros R q chiA chiB kw w chiAz chiBz chiA_aligned chiB_aligned chiA_z
         chiB_z q_number chiAz_number chiBz_number.
  split.
  - intros H.
    assert (Hq1 : (q < lit 1) = false).
    { destruct (q < lit 1) eqn:E; [|reflexivity].
      revert H. validator_cases. discriminate. }
    assert (Hq10 : (q > lit 10.01) = false).
    { destruct (q > lit 10.01) eqn:E; [|reflexivity].
      revert H. validator_cases. discriminate. }
    assert (HA1 : (abs chiAz > lit 1) = false).
    { destruct (abs chiAz > lit 1) eqn:E; [|reflexivity].
      revert H. validator_cases. discriminate. }
    assert (HB1 : (abs chiBz > lit 1) = false).
    { destruct (abs chiBz > lit 1) eqn:E; [|reflexivity].
      revert H. validator_cases. discriminate. }
    repeat split.
    + apply float_not_lt_le; [exact q_number | reflexivity | exact Hq1].
    + apply lit_number; [reflexivity | exact q_number | exact Hq10].
    + apply lit_number; [reflexivity | exact chiAz_number | exact HA1].
    + apply lit_number; [reflexivity | exact chiBz_number | exact HB1].
  - intros (Hq1 & Hq10 & HA1 & HB1).
    apply leb_not_gt in Hq1, Hq10, HA1, HB1.
    validator_cases. reflexivity.
Qed.

(** The training limits of the docstring: under the same conditions, the
    validation succeeds without any warning exactly when [1 <= q <= 8.01],
    [|chiAz| <= 0.81] and [|chiBz| <= 0.81]. *)
Theorem validation_silent_iff_training :
  forall (R : Type) (q : float) (chiA chiB : list float) (kw : kwargs_t)
         (w : world float) (chiAz chiBz : float),
  (in_plane chiA > tol) = false ->
  (in_plane chiB > tol) = false ->
  nth_error chiA 2 = Some chiAz ->
  nth_error chiB 2 = Some chiBz ->
  (q <= q) = true ->
  (abs chiAz <= abs chiAz) = true ->
  (abs chiBz <= abs chiBz) = true ->
  (validate R q chiA chiB kw w = (Next tt, w) <->
  (lit 1 <= q) = true /\ (q <= lit 8.01) = true /\
  (abs chiAz <= lit 0.81) = true /\ (abs chiBz <= lit 0.81) = true).
Proof.
  intros R q chiA chiB kw w chiAz chiBz chiA_aligned chiB_aligned chiA_z
         chiB_z q_number chiAz_number chiBz_number.
  split.
  - intros H.
    assert (Hq1 : (q < lit 1) = false).
    { destruct (q < lit 1) eqn:E; [|reflexivity].
      revert H. validator_cases. discriminate. }
    assert (Hq10 : (q > lit 10.01) = false).
    { destruct (q > lit 10.01) eqn:E; [|reflexivity].
      revert H. validator_cases. discriminate. }
    assert (HA1 : (abs chiAz > lit 1) = false).
    { destruct (abs chiAz > lit 1) eqn:E; [|reflexivity].
      revert H. validator_cases. discriminate. }
    assert (HB1 : (abs chiBz > lit 1) = false).
    { destruct (abs chiBz > lit 1) eqn:E; [|reflexivity].
      revert H. validator_cases. discriminate. }
    revert H. rewrite validate_run; unfold spin_stage.
    rewrite chiA_aligned, chiB_aligned, Hq1, Hq10, chiA_z, HA1, chiB_z, HB1.
    intros H. injection H as H.
    assert (Hw : warnings w =
                 ((warnings w ++ (if q > lit 8.01 then [TrainingRange_q] else []))
                  ++ (if abs chiAz > lit 0.81 then [TrainingRange_BhA] else []))
                 ++ (if abs chiBz > lit 0.81 then [TrainingRange_BhB] else [])).
    { rewrite <- H at 1. now rewrite !warnings_warned_if. }
    apply (f_equal (@List.length string)) in Hw. rewrite !length_app in Hw.
    destruct (q > lit 8.01) eqn:Hq8; [cbn in Hw; lia|].
    destruct (abs chiAz > lit 0.81) eqn:HA8; [cbn in Hw; lia|].
    destruct (abs chiBz > lit 0.81) eqn:HB8; [cbn in Hw; lia|].
    repeat split.
    + apply float_not_lt_le; [exact q_number | reflexivity | exact Hq1].
    + apply lit_number; [reflexivity | exact q_number | exact Hq8].
    + apply lit_number; [reflexivity | exact chiAz_number | exact HA8].
    + apply lit_number; [reflexivity | exact chiBz_number | exact HB8].
  - intros (Hq1 & Hq8 & HA8 & HB8).
    pose proof (upto_8_01_not_above_10_01 _ Hq8) as Hq10.
    pose proof (upto_0_81_not_above_1 _ HA8) as HA1.
    pose proof (upto_0_81_not_above_1 _ HB8) as HB1.
    apply leb_not_gt in Hq1, Hq8, HA8, HB8.
    validator_cases. rewrite Hq8, HA8, HB8. reflexivity.
Qed.

End Binary64Acceptance.

(** ** NaN, signs and short arrays *)

Section Binary64Edges.

Local Open Scope scalar_scope.

Lemma in_plane_nan_x (y z : float) : in_plane [nan; y; z] = nan.
Proof.
  unfold in_plane, np_sum, square. cbn [firstn map fold_left].
  cbn [mul add sqrt Binary64.float_scalar].
  change (PrimFloat.mul nan nan) with nan. rewrite float_nan_add_l.
  reflexivity.
Qed.

Lemma in_plane_nan_y (x z : float) : in_plane [x; nan; z] = nan.
Proof.
  unfold in_plane, np_sum, square. cbn [firstn map fold_left].
  cbn [mul add sqrt Binary64.float_scalar].
  change (PrimFloat.mul nan nan) with nan. rewrite float_add_nan_r.
  reflexivity.
Qed.

Lemma in_plane_zero (z : float) : in_plane [lit 0; lit 0; z] = lit 0.
Proof. reflexivity. Qed.

(** A NaN is never rejected: every comparison with it is false.  A NaN mass
    ratio is validated like [q = 1]; a NaN z-spin like a z-spin 0; a spin
    with a NaN x- or y-component like an exactly aligned spin. *)
Theorem validation_lets_nan_through :
  forall (R : Type) (q : float) (chiA chiB : list float) (kw : kwargs_t)
         (w : world float),
  validate R nan chiA chiB kw w = validate R (lit 1) chiA chiB kw w /\
  (forall x y : float,
     validate R q [x; y; nan] chiB kw w = validate R q [x; y; lit 0] chiB kw w) /\
  (forall x y : float,
     validate R q chiA [x; y; nan] kw w = validate R q chiA [x; y; lit 0] kw w) /\
  (forall y z : float,
     validate R q [nan; y; z] chiB kw w
     = validate R q [lit 0; lit 0; z] chiB kw w) /\
  (forall x z : float,
     validate R q [x; nan; z] chiB kw w
     = validate R q [lit 0; lit 0; z] chiB kw w).
Proof.
  intros R q chiA chiB kw w.
  split; [|split; [|split; [|split]]].
  - rewrite !validate_run.
    replace (nan < lit 1) with false by reflexivity.
    replace (nan > lit 10.01) with false by reflexivity.
    replace (nan > lit 8.01) with false by reflexivity.
    replace ((lit 1 : float) < lit 1) with false by reflexivity.
    replace ((lit 1 : float) > lit 10.01) with false by reflexivity.
    replace ((lit 1 : float) > lit 8.01) with false by reflexivity.
    reflexivity.
  - intros x y. rewrite !validate_run.
    replace (in_plane [x; y; nan]) with (in_plane [x; y; lit 0]) by reflexivity.
    unfold spin_stage at 1 3. cbn [nth_error].
    replace (abs nan > lit 1) with false by reflexivity.
    replace (abs nan > lit 0.81) with false by reflexivity.
    replace (abs (lit 0 : float) > lit 1) with false by reflexivity.
    replace (abs (lit 0 : float) > lit 0.81) with false by reflexivity.
    reflexivity.
  - intros x y. rewrite !validate_run.
    replace (in_plane [x; y; nan]) with (in_plane [x; y; lit 0]) by reflexivity.
    destruct (spin_stage R OutOfRange_BhA TrainingRange_BhA chiA
                (warned_if (q > lit 8.01) w TrainingRange_q)) as [[[]| |] w2];
      reflexivity.
  - intros y z. rewrite !validate_run, in_plane_nan_x, in_plane_zero.
    replace (nan > tol) with false by reflexivity.
    replace (lit 0 > tol) with false by reflexivity.
    reflexivity.
  - intros x z. rewrite !validate_run, in_plane_nan_y, in_plane_zero.
    replace (nan > tol) with false by reflexivity.
    replace (lit 0 > tol) with false by reflexivity.
    reflexivity.
Qed.

(** The validator sees a z-spin through its absolute value only: changing
    the sign of [chiA[2]] or of [chiB[2]] changes nothing. *)
Theorem validation_ignores_spin_sign :
  forall (R : Type) (q : float) (x y z x' y' z' : float) (kw : kwargs_t)
         (w : world float),
  validate R q [x; y; PrimFloat.opp z] [x'; y'; z'] kw w
  = validate R q [x; y; z] [x'; y'; z'] kw w /\
  validate R q [x; y; z] [x'; y'; PrimFloat.opp z'] kw w
  = validate R q [x; y; z] [x'; y'; z'] kw w.
Proof.
  intros R q x y z x' y' z' kw w.
  split; rewrite !validate_run; unfold spin_stage, in_plane;
    cbn [nth_error firstn abs Binary64.float_scalar];
    rewrite float_abs_opp; reflexivity.
Qed.

End Binary64Edges.

(** Closes a branch of the validator in which every test is decided: the
    outcome is read off, and the warnings are one of the eight subsequences
    of (q, BhA, BhB). *)
Ltac validator_frame_with bq bA bB :=
  eexists; exists bq, bA, bB; intros [ws cs];
  rewrite check_param_limits_run; unfold spin_stage, warned_if, warned;
  repeat match goal with
         | H : ?c = _ |- context [if ?c then _ else _] => rewrite H
         | H : nth_error ?l ?n = _ |- context [nth_error ?l ?n] => rewrite H
         end;
  cbn [snd warnings calls app]; rewrite ?app_nil_r, <- ?app_assoc;
  reflexivity.

Ltac validator_frame :=
  first [ validator_frame_with false false false
        | validator_frame_with true false false
        | validator_frame_with false true false
        | validator_frame_with false false true
        | validator_frame_with true true false
        | validator_frame_with true false true
        | validator_frame_with false true true
        | validator_frame_with true true true ].

Section ValidatorEffects.

Context {T : Type} {S : Scalar T}.
Variable R : Type.
Local Open Scope scalar_scope.

(** The warnings of the function itself: each of the three at most once, in
    the order [q], BhA, BhB, after the warnings already there; the call log
    is left alone; and neither the outcome nor the warnings emitted depend on
    what was emitted or called before. *)
Lemma check_param_limits_frame :
  forall (q : T) (chiA chiB : list T) (kw : kwargs_t),
  exists (o : outcome R unit) (bq bA bB : bool),
  forall w : world T,
    @_check_param_limits T S R q chiA chiB kw w =
    (o,
     {| warnings :=
          warnings w ++ (if bq then [TrainingRange_q] else [])
                     ++ (if bA then [TrainingRange_BhA] else [])
                     ++ (if bB then [TrainingRange_BhB] else []);
        calls := calls w |}).
Proof.
  intros q chiA chiB kw.
  destruct (in_plane chiA > lit 1e-10) eqn:E1; try validator_frame.
  destruct (in_plane chiB > lit 1e-10) eqn:E2; try validator_frame.
  destruct (q < lit 1) eqn:E3; try validator_frame.
  destruct (q > lit 10.01) eqn:E4; try validator_frame.
  destruct (q > lit 8.01) eqn:E5;
    (destruct (nth_error chiA 2) as [chiAz|] eqn:E6; try validator_frame;
     destruct (abs chiAz > lit 1) eqn:E7; try validator_frame;
     destruct (abs chiAz > lit 0.81) eqn:E8;
       (destruct (nth_error chiB 2) as [chiBz|] eqn:E9; try validator_frame;
        destruct (abs chiBz > lit 1) eqn:E10; try validator_frame;
        destruct (abs chiBz > lit 0.81) eqn:E11; validator_frame)).
Qed.

(** A spin array with fewer than three elements has no [chi[2]]: once the
    in-plane and the [q] checks have passed, the validator raises
    [IndexError] for [chiA] (after the warning for [q], if any), and for
    [chiB] once [chiA[2]] has been accepted. *)
Theorem validation_short_spin_array :
  forall (q : T) (chiA chiB : list T) (kw : kwargs_t) (w : world T),
  (in_plane chiA > lit 1e-10) = false ->
  (in_plane chiB > lit 1e-10) = false ->
  (q < lit 1) = false ->
  (q > lit 10.01) = false ->
  ((List.length chiA < 3)%nat ->
     @_check_param_limits T S R q chiA chiB kw w =
     (Raise (IndexError 2 (List.length chiA)),
      warned_if (q > lit 8.01) w TrainingRange_q)) /\
  (forall chiAz : T,
     nth_error chiA 2 = Some chiAz -> (abs chiAz > lit 1) = false ->
     (List.length chiB < 3)%nat ->
     @_check_param_limits T S R q chiA chiB kw w =
     (Raise (IndexError 2 (List.length chiB)),
      warned_if (abs chiAz > lit 0.81)
        (warned_if (q > lit 8.01) w TrainingRange_q) TrainingRange_BhA)).
Proof.
  intros q chiA chiB kw w HA HB Hq1 Hq10.
  rewrite check_param_limits_run, HA, HB, Hq1, Hq10. unfold spin_stage.
  split.
  - intros Hlen. assert (Hn : nth_error chiA 2 = None) by (apply nth_error_None; lia).
    rewrite Hn. reflexivity.
  - intros chiAz HAz HA1 Hlen.
    assert (Hn : nth_error chiB 2 = None) by (apply nth_error_None; lia).
    rewrite HAz, HA1, Hn. reflexivity.
Qed.

End ValidatorEffects.

Section ValidatorWarnings.

Variable R : Type.

(** Besides the three calls to [warnings.warn] of the function, numpy itself
    warns when the square or the sum of [np.sqrt(np.sum(chi[:2]**2))]
    overflows; that warning is not part of [in_plane].  When the in-plane
    magnitude is finite, no square and no sum has overflowed.

    On spin arrays whose in-plane magnitudes are finite and whose
    z-components are not NaN, the validator only appends warnings: each of
    the three training-range warnings at most once, in the order [q], BhA,
    BhB, after the warnings already there; it leaves the call log alone; and
    neither its outcome nor the warnings it emits depend on what was emitted
    or called before. *)
Theorem validation_appends_warnings :
  forall (q : float) (chiA chiB : list float) (kw : kwargs_t),
  PrimFloat.is_finite (in_plane chiA) = true ->
  PrimFloat.is_finite (in_plane chiB) = true ->
  (forall z : float, nth_error chiA 2 = Some z -> PrimFloat.is_nan z = false) ->
  (forall z : float, nth_error chiB 2 = Some z -> PrimFloat.is_nan z = false) ->
  exists (o : outcome R unit) (bq bA bB : bool),
  forall w : world float,
    @_check_param_limits float Binary64.float_scalar R q chiA chiB kw w =
    (o,
     {| warnings :=
          warnings w ++ (if bq then [TrainingRange_q] else [])
                     ++ (if bA then [TrainingRange_BhA] else [])
                     ++ (if bB then [TrainingRange_BhB] else []);
        calls := calls w |}).
Proof.
  intros q chiA chiB kw _ _ _ _.
  exact (@check_param_limits_frame float Binary64.float_scalar R q chiA chiB kw).
Qed.

End ValidatorWarnings.


(* ===================================================================== *)
(** * [_load_fits] (fit_3dq8.py, lines 61-66) *)
(* ===================================================================== *)

Section Loader.

(** The HDF5 file and the fits read from it. *)
Variables H5 Fit : Type.

(** [_load_scalar_fit] belongs to the base class [surfinBH.SurFinBH], which
    is not among the sources: it is a parameter. *)
Variable _load_scalar_fit : string -> H5 -> Fit.

(** A Python dictionary with string keys: the entries in insertion order,
    each key once. *)
Definition dict : Type := list (string * Fit).

(** [d[k] = v] *)
Fixpoint dict_set (d : dict) (k : string) (v : Fit) : dict :=
  match d with
  | [] => [(k, v)]
  | (k', v') :: r =>
      if String.eqb k' k then (k', v) :: r else (k', v') :: dict_set r k v
  end.

(** [d[k]]; [None] stands for [KeyError]. *)
Fixpoint dict_get (d : dict) (k : string) : option Fit :=
  match d with
  | [] => None
  | (k', v') :: r => if String.eqb k' k then Some v' else dict_get r k
  end.

Definition _load_fits (h5file : H5) : dict :=
  let fits := [] in
  fold_left
    (fun fits key => dict_set fits key (_load_scalar_fit key h5file))
    ["mC"; "chiCz"; "velCx"; "velCy"]%string
    fits.

(** The names of the four scalar fits. *)
Definition fit_names : list string := ["mC"; "chiCz"; "velCx"; "velCy"]%string.

(** A loaded name is found. *)
Lemma load_fits_get (h5file : H5) (key : string) :
  In key fit_names ->
  dict_get (_load_fits h5file) key = Some (_load_scalar_fit key h5file).
Proof.
  intros Hin. cbn in Hin.
  destruct Hin as [<-|[<-|[<-|[<-|[]]]]]; reflexivity.
Qed.

(** The dictionary of [_load_fits] has the four fit names as its keys, in
    this order; looking up a name gives the fit [_load_scalar_fit] loaded
    for this name from this file, and looking up anything else fails. *)
Theorem load_fits_lookup :
  forall (h5file : H5) (key : string),
  map fst (_load_fits h5file) = fit_names /\
  (In key fit_names ->
   dict_get (_load_fits h5file) key = Some (_load_scalar_fit key h5file)) /\
  (~ In key fit_names -> dict_get (_load_fits h5file) key = None).
Proof.
  intros h5file key. split; [reflexivity|]. split.
  - apply load_fits_get.
  - intros Hout.
    assert (Hd : _load_fits h5file =
                 [("mC", _load_scalar_fit "mC" h5file);
                  ("chiCz", _load_scalar_fit "chiCz" h5file);
                  ("velCx", _load_scalar_fit "velCx" h5file);
                  ("velCy", _load_scalar_fit "velCy" h5file)]%string)
      by reflexivity.
    rewrite Hd. cbn [dict_get].
    assert (Hne : forall name, In name fit_names -> String.eqb name key = false).
    { intros name Hin. apply String.eqb_neq. intros ->. exact (Hout Hin). }
    rewrite !Hne by (cbn; tauto). reflexivity.
Qed.

End Loader.

(* ===================================================================== *)
(** * More about the dispatcher *)
(* ===================================================================== *)

Section DispatcherEffects.

Context {T : Type} {S : Scalar T}.
Variable evaluator : string -> list T -> T * T.

Local Open Scope string_scope.

(** The validator has no [return] statement. *)
Lemma check_param_limits_no_return R q chiA chiB kw w (r : R) (w' : world T) :
  @_check_param_limits T S R q chiA chiB kw w <> (Return r, w').
Proof.
  rewrite check_param_limits_run; unfold spin_stage.
  repeat match goal with
         | |- context [if ?c then _ else _] => destruct c
         | |- context [nth_error ?l ?n] => destruct (nth_error l n)
         end; discriminate.
Qed.

(** A call that the validator or the option check stops. *)
Lemma eval_wrapper_stopped fit_key q chiA chiB kwargs w :
  (forall e w',
     @_check_param_limits T S (value T) q chiA chiB kwargs w = (Raise e, w') ->
     _eval_wrapper evaluator fit_key q chiA chiB kwargs w = (Error e, w')) /\
  (forall w',
     @_check_param_limits T S (value T) q chiA chiB kwargs w = (Next tt, w') ->
     kwargs <> [] ->
     _eval_wrapper evaluator fit_key q chiA chiB kwargs w =
     (Error (UnsupportedOption (map fst kwargs)), w')).
Proof.
  split.
  - intros e w' Hv. unfold _eval_wrapper, call, bind at 1. rewrite Hv.
    reflexivity.
  - intros w' Hv Hk. unfold _eval_wrapper, call, bind at 1. rewrite Hv.
    unfold bind at 1. destruct kwargs as [|kv kwargs']; [now elim Hk|].
    reflexivity.
Qed.

(** What a dispatch does when nothing stops it, for every [fit_key]. *)
Definition dispatched (fit_key : string) (x : list T)
  : option (value T) * list (string * list T) :=
  let '(mC, mC_err) := evaluator "mC" x in
  let '(chiCz, chiCz_err) := evaluator "chiCz" x in
  let '(velCx, velCx_err) := evaluator "velCx" x in
  let '(velCy, velCy_err) := evaluator "velCy" x in
  let chiC := Arr [lit 0; lit 0; chiCz] in
  let chiC_err := Arr [lit 0; lit 0; chiCz_err] in
  let velC := Arr [velCx; velCy; lit 0] in
  let velC_err := Arr [velCx_err; velCy_err; lit 0] in
  if fit_key =? "mC" then
    (Some (Tuple [Num mC; Num mC_err]), [("mC", x)])
  else if fit_key =? "chiC" then
    (Some (Tuple [chiC; chiC_err]), [("chiCz", x)])
  else if fit_key =? "velC" then
    (Some (Tuple [velC; velC_err]), [("velCx", x); ("velCy", x)])
  else if fit_key =? "all" then
    (Some (Tuple [Num mC; chiC; velC; Num mC_err; chiC_err; velC_err]),
     [("mC", x); ("chiCz", x); ("velCx", x); ("velCy", x)])
  else (None, []).

Lemma eval_wrapper_dispatched fit_key q chiA chiB kwargs w w' :
  @_check_param_limits T S (value T) q chiA chiB kwargs w = (Next tt, w') ->
  kwargs = [] ->
  exists chiAz chiBz,
    nth_error chiA 2 = Some chiAz /\ nth_error chiB 2 = Some chiBz /\
    _eval_wrapper evaluator fit_key q chiA chiB kwargs w =
    (Value (fst (dispatched fit_key [q; chiAz; chiBz])),
     {| warnings := warnings w';
        calls := calls w ++ snd (dispatched fit_key [q; chiAz; chiBz]) |}).
Proof.
  intros Hv ->.
  edestruct eval_wrapper_validated
    as (a & b & Ha & Hb & Hc & Hrun); [exact Hv | reflexivity |].
  exists a, b. split; [exact Ha|]. split; [exact Hb|].
  unfold _eval_wrapper. rewrite Hrun. unfold dispatched.
  destruct (evaluator "mC" [q; a; b]) as [mC mC_err] eqn:HmC.
  destruct (evaluator "chiCz" [q; a; b]) as [chiCz chiCz_err] eqn:HchiCz.
  destruct (evaluator "velCx" [q; a; b]) as [velCx velCx_err] eqn:HvelCx.
  destruct (evaluator "velCy" [q; a; b]) as [velCy velCy_err] eqn:HvelCy.
  destruct (String.eqb_spec fit_key "mC") as [->|H1].
  { dispatch. rewrite HmC. dispatch. rewrite Hc. reflexivity. }
  destruct (String.eqb_spec fit_key "chiC") as [->|H2].
  { dispatch. rewrite HchiCz. dispatch. rewrite Hc. reflexivity. }
  destruct (String.eqb_spec fit_key "velC") as [->|H3].
  { dispatch. rewrite HvelCx. dispatch. rewrite HvelCy. dispatch.
    rewrite Hc, <- !app_assoc. reflexivity. }
  destruct (String.eqb_spec fit_key "all") as [->|H4].
  { dispatch. rewrite HmC. dispatch. rewrite HchiCz. dispatch.
    rewrite HvelCx. dispatch. rewrite HvelCy. dispatch.
    rewrite Hc, <- !app_assoc. reflexivity. }
  dispatch. rewrite <- Hc, app_nil_r. destruct w'; reflexivity.
Qed.

End DispatcherEffects.

Section DispatcherProperties.

Context {T : Type} {S : Scalar T}.
Variable evaluator : string -> list T -> T * T.

Local Open Scope string_scope.

Lemma dispatched_calls fit_key x :
  (List.length (snd (dispatched evaluator fit_key x)) <= 4)%nat /\
  forall key x', In (key, x') (snd (dispatched evaluator fit_key x)) ->
                 In key fit_names /\ x' = x.
Proof.
  unfold dispatched.
  destruct (evaluator "mC" x), (evaluator "chiCz" x),
           (evaluator "velCx" x), (evaluator "velCy" x).
  repeat match goal with
         | |- context [if ?c then _ else _] => destruct c
         end; cbn [snd List.length]; (split; [lia|]);
    intros key x' Hin; cbn in Hin;
    repeat match goal with
           | H : _ \/ _ |- _ => destruct H as [H|H]
           | H : (_, _) = (_, _) |- _ => injection H as <- <-
           | H : False |- _ => destruct H
           end; (split; [cbn; tauto | reflexivity]).
Qed.

(** The outcomes of the validator, seen from the dispatcher. *)
Lemma check_param_limits_outcome q chiA chiB kwargs w :
  (exists w', @_check_param_limits T S (value T) q chiA chiB kwargs w
              = (Next tt, w')) \/
  (exists e w', @_check_param_limits T S (value T) q chiA chiB kwargs w
                = (Raise e, w')).
Proof.
  destruct (@_check_param_limits T S (value T) q chiA chiB kwargs w)
    as [[[]|r|e] w'] eqn:Hv.
  - left. now exists w'.
  - now apply check_param_limits_no_return in Hv.
  - right. now exists e, w'.
Qed.

(** Every call of the evaluator is for a fit that [_load_fits] has loaded,
    whatever [fit_key] and the inputs are: its key is found in the
    dictionary of [_load_fits].  A call of [_eval_wrapper] makes at most four
    of them, all on the same argument [[q, chiA[2], chiB[2]]], and adds them
    to the calls made before. *)
Theorem eval_wrapper_calls_loaded_fits :
  forall (H5 Fit : Type) (_load_scalar_fit : string -> H5 -> Fit)
         (h5file : H5)
         (fit_key : string) (q : T) (chiA chiB : list T) (kwargs : kwargs_t)
         (w : world T),
  exists cs : list (string * list T),
    calls (snd (_eval_wrapper evaluator fit_key q chiA chiB kwargs w))
    = (calls w ++ cs)%list /\
    (List.length cs <= 4)%nat /\
    forall (key : string) (x : list T),
      In (key, x) cs ->
      dict_get (_load_fits _load_scalar_fit h5file) key
      = Some (_load_scalar_fit key h5file) /\
      exists chiAz chiBz : T,
        nth_error chiA 2 = Some chiAz /\ nth_error chiB 2 = Some chiBz /\
        x = [q; chiAz; chiBz].
Proof.
  intros H5 Fit loader h5file fit_key q chiA chiB kwargs w.
  pose proof (check_param_limits_calls (value T) q chiA chiB kwargs w) as Hc.
  destruct (eval_wrapper_stopped evaluator fit_key q chiA chiB kwargs w)
    as [Hraise Hopt].
  destruct (check_param_limits_outcome q chiA chiB kwargs w)
    as [[w' Hv]|(e & w' & Hv)]; rewrite Hv in Hc; cbn [snd] in Hc.
  - destruct kwargs as [|kv kwargs'].
    + edestruct eval_wrapper_dispatched
        as (a & b & Ha & Hb & Hrun); [exact Hv | reflexivity |].
      rewrite Hrun. cbn [snd calls].
      exists (snd (dispatched evaluator fit_key [q; a; b])).
      destruct (dispatched_calls fit_key [q; a; b]) as [Hlen Hkeys].
      split; [reflexivity|]. split; [exact Hlen|].
      intros key x Hin. destruct (Hkeys key x Hin) as [Hname ->].
      split; [|now exists a, b].
      now apply load_fits_get.
    + rewrite (Hopt w' Hv) by discriminate. cbn [snd].
      exists []. rewrite app_nil_r. split; [exact Hc|].
      split; [cbn; lia | intros key x []].
  - rewrite (Hraise e w' Hv). cbn [snd].
    exists []. rewrite app_nil_r. split; [exact Hc|].
    split; [cbn; lia | intros key x []].
Qed.

(** The dispatch never warns: the warnings after a call of [_eval_wrapper]
    are those the validator leaves, whether the call returns or raises. *)
Theorem eval_wrapper_keeps_warnings :
  forall (fit_key : string) (q : T) (chiA chiB : list T) (kwargs : kwargs_t)
         (w : world T),
  warnings (snd (_eval_wrapper evaluator fit_key q chiA chiB kwargs w)) =
  warnings (snd (@_check_param_limits T S (value T) q chiA chiB kwargs w)).
Proof.
  intros fit_key q chiA chiB kwargs w.
  destruct (eval_wrapper_stopped evaluator fit_key q chiA chiB kwargs w)
    as [Hraise Hopt].
  destruct (check_param_limits_outcome q chiA chiB kwargs w)
    as [[w' Hv]|(e & w' & Hv)]; rewrite Hv; cbn [snd].
  - destruct kwargs as [|kv kwargs'].
    + edestruct eval_wrapper_dispatched
        as (a & b & Ha & Hb & Hrun); [exact Hv | reflexivity |].
      rewrite Hrun. reflexivity.
    + rewrite (Hopt w' Hv) by discriminate. reflexivity.
  - rewrite (Hraise e w' Hv). reflexivity.
Qed.

(** The only exceptions of [_eval_wrapper] are those of the validator and
    the rejection of keyword options: the dispatch itself never raises; in
    particular the locals read by the last [return] are always assigned. *)
Theorem eval_wrapper_errors :
  forall (fit_key : string) (q : T) (chiA chiB : list T) (kwargs : kwargs_t)
         (w w' : world T) (e : exn),
  (_eval_wrapper evaluator fit_key q chiA chiB kwargs w = (Error e, w') <->
   @_check_param_limits T S (value T) q chiA chiB kwargs w = (Raise e, w') \/
   (@_check_param_limits T S (value T) q chiA chiB kwargs w = (Next tt, w') /\
    kwargs <> [] /\ e = UnsupportedOption (map fst kwargs))) /\
  (forall name : string,
     _eval_wrapper evaluator fit_key q chiA chiB kwargs w
     <> (Error (UnboundLocalError name), w')).
Proof.
  intros fit_key q chiA chiB kwargs w w' e.
  destruct (eval_wrapper_stopped evaluator fit_key q chiA chiB kwargs w)
    as [Hraise Hopt].
  assert (Hiff : forall e0,
    _eval_wrapper evaluator fit_key q chiA chiB kwargs w = (Error e0, w') <->
    @_check_param_limits T S (value T) q chiA chiB kwargs w = (Raise e0, w') \/
    (@_check_param_limits T S (value T) q chiA chiB kwargs w = (Next tt, w') /\
     kwargs <> [] /\ e0 = UnsupportedOption (map fst kwargs))).
  { intros e0. split.
    - intros Hrun.
      destruct (check_param_limits_outcome q chiA chiB kwargs w)
        as [[w1 Hv]|(e1 & w1 & Hv)].
      + destruct kwargs as [|kv kwargs'].
        * edestruct eval_wrapper_dispatched
            as (a & b & Ha & Hb & Hrun'); [exact Hv | reflexivity |].
          rewrite Hrun' in Hrun. discriminate Hrun.
        * rewrite (Hopt w1 Hv) in Hrun by discriminate.
          injection Hrun as <- <-. right. split; [exact Hv|].
          split; [discriminate | reflexivity].
      + rewrite (Hraise e1 w1 Hv) in Hrun. injection Hrun as <- <-.
        left. exact Hv.
    - intros [Hv|(Hv & Hk & ->)].
      + exact (Hraise e0 w' Hv).
      + exact (Hopt w' Hv Hk). }
  split; [apply Hiff|].
  intros name Hrun. apply Hiff in Hrun.
  destruct Hrun as [Hv|(_ & _ & He)]; [|discriminate He].
  revert Hv. rewrite check_param_limits_run; unfold spin_stage.
  repeat match goal with
         | |- context [if ?c then _ else _] => destruct c
         | |- context [nth_error ?l ?n] => destruct (nth_error l n)
         end; discriminate.
Qed.

(** 'all' is the three single evaluations put together: its mass and mass
    error are those 'mC' returns, its spin and spin error those 'chiC'
    returns, its kick and kick error those 'velC' returns. *)
Theorem eval_wrapper_all_agrees_with_single :
  forall (q : T) (chiA chiB : list T) (kwargs : kwargs_t) (w w' : world T),
  @_check_param_limits T S (value T) q chiA chiB kwargs w = (Next tt, w') ->
  kwargs = [] ->
  exists mC mC_err chiC chiC_err velC velC_err : value T,
    fst (_eval_wrapper evaluator "mC" q chiA chiB kwargs w)
    = Value (Some (Tuple [mC; mC_err])) /\
    fst (_eval_wrapper evaluator "chiC" q chiA chiB kwargs w)
    = Value (Some (Tuple [chiC; chiC_err])) /\
    fst (_eval_wrapper evaluator "velC" q chiA chiB kwargs w)
    = Value (Some (Tuple [velC; velC_err])) /\
    fst (_eval_wrapper evaluator "all" q chiA chiB kwargs w)
    = Value (Some (Tuple [mC; chiC; velC; mC_err; chiC_err; velC_err])).
Proof.
  intros q chiA chiB kwargs w w' Hv Hk.
  destruct (@eval_wrapper_dispatched T S evaluator "mC" q chiA chiB kwargs
              w w' Hv Hk)
    as (a & b & Ha & Hb & HmC).
  destruct (@eval_wrapper_dispatched T S evaluator "chiC" q chiA chiB kwargs
              w w' Hv Hk)
    as (a1 & b1 & Ha1 & Hb1 & HchiC).
  destruct (@eval_wrapper_dispatched T S evaluator "velC" q chiA chiB kwargs
              w w' Hv Hk)
    as (a2 & b2 & Ha2 & Hb2 & HvelC).
  destruct (@eval_wrapper_dispatched T S evaluator "all" q chiA chiB kwargs
              w w' Hv Hk)
    as (a3 & b3 & Ha3 & Hb3 & Hall).
  assert (a1 = a) by congruence. assert (b1 = b) by congruence.
  assert (a2 = a) by congruence. assert (b2 = b) by congruence.
  assert (a3 = a) by congruence. assert (b3 = b) by congruence.
  subst a1 b1 a2 b2 a3 b3.
  rewrite HmC, HchiC, HvelC, Hall. unfold dispatched.
  destruct (evaluator "mC" [q; a; b]) as [mC mC_err].
  destruct (evaluator "chiCz" [q; a; b]) as [chiCz chiCz_err].
  destruct (evaluator "velCx" [q; a; b]) as [velCx velCx_err].
  destruct (evaluator "velCy" [q; a; b]) as [velCy velCy_err].
  cbn [fst String.eqb Ascii.eqb Bool.eqb].
  do 6 eexists. repeat split; reflexivity.
Qed.

End DispatcherProperties.

Section MapperOutcomes.

Variable libm_pow : float -> float -> float * bool.
Variable np_log : float -> float.
Local Open Scope scalar_scope.

(** The only exception of [iv ** 2] is [OverflowError]. *)
Lemma pow2_raises (iv : float) (e : exn) :
  PyFloat.pow2 libm_pow iv = inl e -> e = OverflowError.
Proof.
  unfold PyFloat.pow2.
  destruct (PrimFloat.is_nan iv); [discriminate|].
  destruct (PrimFloat.is_infinity iv); [discriminate|].
  destruct (PrimFloat.eqb iv 0); [discriminate|].
  destruct (PrimFloat.eqb _ 1); [discriminate|].
  destruct (libm_pow _ 2) as [ix erange].
  destruct (if erange then _ else _); congruence.
Qed.

(** Whatever the [pow] of the platform: above 1, a result that is infinite is
    an [OverflowError], whether or not [errno] was set. *)
Lemma pow2_overflow (iv : float) :
  PrimFloat.is_nan iv = false -> PrimFloat.is_infinity iv = false ->
  PrimFloat.ltb (lit 1) iv = true ->
  PrimFloat.is_infinity (fst (libm_pow iv 2)) = true ->
  PyFloat.pow2 libm_pow iv = inl OverflowError.
Proof.
  intros Hnan Hinf H1 Hix. unfold PyFloat.pow2. rewrite Hnan, Hinf.
  assert (H0 : PrimFloat.eqb iv 0 = false /\ PrimFloat.ltb iv 0 = false).
  { apply float_ge_1_positive. revert H1. rewrite leb_spec, ltb_spec.
    generalize (Prim2SF (lit 1)) (Prim2SF iv). intros x y. sf_cases. }
  destruct H0 as [-> ->].
  assert (Hne : PrimFloat.eqb iv 1 = false).
  { revert H1. rewrite eqb_spec, ltb_spec.
    replace (Prim2SF 1) with (Prim2SF (lit 1)) by reflexivity.
    generalize (Prim2SF (lit 1)) (Prim2SF iv). intros x y.
    unfold SFeqb. sf_cases. }
  rewrite Hne. destruct (libm_pow iv 2) as [ix erange]. cbn [fst] in Hix.
  destruct erange.
  - assert (Hz : PrimFloat.eqb ix 0 = false).
    { revert Hix. unfold PrimFloat.is_infinity. rewrite !eqb_spec, abs_spec.
      replace (Prim2SF infinity) with (S754_infinity false) by reflexivity.
      replace (Prim2SF 0) with (S754_zero false) by reflexivity.
      destruct (Prim2SF ix) as [s|s| |s m e]; try discriminate;
        destruct s; reflexivity. }
    rewrite Hz. reflexivity.
  - rewrite Hix. reflexivity.
Qed.

(** The mapper unpacks exactly three values: on any other list it raises
    [ValueError] and leaves the world as it was.  On three Python floats it
    never raises [ValueError]: it raises [OverflowError] or
    [ZeroDivisionError], leaving the world as it was, or it returns a list of
    three fit parameters, the first [np.log(q)] and the last
    [(chiAz - chiBz)/2.]; numpy's warning for the logarithm is then emitted
    exactly when [q] is zero or negative, and the call log is never
    touched. *)
Theorem get_fit_params_arity :
  forall (x : list float) (fit_key : string) (w : world float),
  ((List.length x < 3)%nat ->
   _get_fit_params libm_pow np_log x fit_key w =
   (Error (ValueError "not enough values to unpack"), w)) /\
  ((3 < List.length x)%nat ->
   _get_fit_params libm_pow np_log x fit_key w =
   (Error (ValueError "too many values to unpack"), w)) /\
  (forall q chiAz chiBz : float,
   x = [q; chiAz; chiBz] ->
   _get_fit_params libm_pow np_log x fit_key w = (Error OverflowError, w) \/
   _get_fit_params libm_pow np_log x fit_key w = (Error ZeroDivisionError, w) \/
   exists chiHat : float,
     _get_fit_params libm_pow np_log x fit_key w =
     (Value (Some [np_log q; chiHat; (chiAz - chiBz) / lit 2]),
      if PrimFloat.eqb q 0
      then warned w "divide by zero encountered in log"
      else if PrimFloat.ltb q 0
           then warned w "invalid value encountered in log"
           else w)).
Proof.
  intros x fit_key w. split; [|split].
  - intros H. destruct x as [|a [|b [|c r]]]; cbn [List.length] in H;
      try lia; reflexivity.
  - intros H. destruct x as [|a [|b [|c [|d r]]]]; cbn [List.length] in H;
      try lia; reflexivity.
  - intros q chiAz chiBz ->.
    destruct (PyFloat.pow2 libm_pow (lit 1 + q)) as [e|sq] eqn:Hpow.
    + left. rewrite (@pow2_raises _ e Hpow) in Hpow.
      unfold _get_fit_params, call, bind at 1. rewrite Hpow. reflexivity.
    + rewrite (@get_fit_params_run libm_pow np_log q chiAz chiBz sq fit_key w
                 Hpow).
      destruct (PrimFloat.eqb sq 0); [right; left; reflexivity|].
      cbv zeta.
      destruct (PrimFloat.eqb _ 0); [right; left; reflexivity|].
      right; right. eexists.
      unfold call, bind, numpy_log, warn, ret, return_, warned.
      destruct (PrimFloat.eqb q 0); [reflexivity|].
      destruct (PrimFloat.ltb q 0); reflexivity.
Qed.

(** Whatever the [pow] of the platform, the mapper raises [OverflowError],
    and does nothing else, as soon as [1.+q] is a number above 1 whose square
    [pow] returns as an infinity. *)
Theorem get_fit_params_overflow :
  forall (q chiAz chiBz : float) (fit_key : string) (w : world float),
  PrimFloat.is_nan (lit 1 + q) = false ->
  PrimFloat.is_infinity (lit 1 + q) = false ->
  PrimFloat.ltb (lit 1) (lit 1 + q) = true ->
  PrimFloat.is_infinity (fst (libm_pow (lit 1 + q) 2)) = true ->
  _get_fit_params libm_pow np_log [q; chiAz; chiBz] fit_key w =
  (Error OverflowError, w).
Proof.
  intros q chiAz chiBz fit_key w Hnan Hinf H1 Hix.
  unfold _get_fit_params, call, bind at 1.
  rewrite (@pow2_overflow (lit 1 + q) Hnan Hinf H1 Hix). reflexivity.
Qed.

(** Below the domain [q >= 1], whatever [pow] and [np.log] are.  At [q = -1]
    the power [(1.+q)**2] is [0.0] and the division [q/(1.+q)**2] raises
    [ZeroDivisionError].  At [q = 0] the power is 1, every division goes
    through, [np.log(0.)] emits numpy's warning and the list is returned. *)
Theorem get_fit_params_below_domain :
  forall (chiAz chiBz : float) (fit_key : string) (w : world float),
  _get_fit_params libm_pow np_log [lit (-1); chiAz; chiBz] fit_key w =
  (Error ZeroDivisionError, w) /\
  _get_fit_params libm_pow np_log [lit 0; chiAz; chiBz] fit_key w =
  (Value (Some [np_log (lit 0);
                ((lit 0 * chiAz + chiBz) / (lit 1 + lit 0)
                 - lit 38 * (lit 0 / lit 1) / lit 113 * (chiAz + chiBz))
                / (lit 1 - lit 76 * (lit 0 / lit 1) / lit 113);
                (chiAz - chiBz) / lit 2]),
   warned w "divide by zero encountered in log").
Proof.
  intros chiAz chiBz fit_key w. split.
  - assert (Hsq : PyFloat.pow2 libm_pow (lit 1 + lit (-1)) = inr 0%float)
      by reflexivity.
    pose proof (@get_fit_params_run libm_pow np_log (lit (-1)) chiAz chiBz
                  0%float fit_key w) as Hrun.
    rewrite (Hrun Hsq). reflexivity.
  - assert (Hsq : PyFloat.pow2 libm_pow (lit 1 + lit 0) = inr (lit 1))
      by reflexivity.
    pose proof (@get_fit_params_run libm_pow np_log (lit 0) chiAz chiBz
                  (lit 1) fit_key w) as Hrun.
    rewrite (Hrun Hsq).
    replace (PrimFloat.eqb (lit 1) 0) with false by reflexivity.
    cbv zeta.
    replace (PrimFloat.eqb (lit 1 - lit 76 * (lit 0 / lit 1) / lit 113) 0)
      with false by (vm_compute; reflexivity).
    reflexivity.
Qed.

End MapperOutcomes.

(* ===================================================================== *)
(** * The further properties at concrete inputs *)
(* ===================================================================== *)

Section MoreConcreteInputs.

Local Open Scope string_scope.

(** [q = 2], [chiA = [0, 0, 0.9]], [chiB = [0, 0, -0.7]]: inside the allowed
    limits. *)
Lemma validation_succeeds_iff_allowed_witness :
  fst (validate unit (lit 2) [lit 0; lit 0; lit 0.9]
         [lit 0; lit 0; lit (-0.7)] [] fresh) = Next tt.
Proof.
  refine (proj2 (@validation_succeeds_iff_allowed unit (lit 2)
                   [lit 0; lit 0; lit 0.9] [lit 0; lit 0; lit (-0.7)] []
                   fresh (lit 0.9) (lit (-0.7)) _ _ _ _ _ _ _) _);
    try (vm_compute; reflexivity).
  repeat split; vm_compute; reflexivity.
Defined.

(** [q = 2], [chiA = [0, 0, 0.5]], [chiB = [0, 0, -0.7]]: inside the
    training limits. *)
Lemma validation_silent_iff_training_witness :
  validate unit (lit 2) [lit 0; lit 0; lit 0.5] [lit 0; lit 0; lit (-0.7)] []
    fresh
  = (Next tt, fresh).
Proof.
  refine (proj2 (@validation_silent_iff_training unit (lit 2)
                   [lit 0; lit 0; lit 0.5] [lit 0; lit 0; lit (-0.7)] []
                   fresh (lit 0.5) (lit (-0.7)) _ _ _ _ _ _ _) _);
    try (vm_compute; reflexivity).
  repeat split; vm_compute; reflexivity.
Defined.

(** An empty [chiA] with [q = 9]. *)
Lemma validation_short_spin_array_witness :
  validate unit (lit 9) [] [lit 0; lit 0; lit 0.5] [] fresh
  = (Raise (IndexError 2 0), warned fresh TrainingRange_q).
Proof.
  refine (proj1 (@validation_short_spin_array float Binary64.float_scalar unit
                   (lit 9) [] [lit 0; lit 0; lit 0.5] [] fresh _ _ _ _) _);
    try (vm_compute; reflexivity).
  cbn. lia.
Defined.

(** [q = 9], [chiA = [0, 0, 0.9]], [chiB = [0, 0, 0.5]]. *)
Lemma validation_appends_warnings_witness :
  exists (o : outcome unit unit) (bq bA bB : bool),
  forall w : world float,
    @_check_param_limits float Binary64.float_scalar unit (lit 9)
      [lit 0; lit 0; lit 0.9] [lit 0; lit 0; lit 0.5] [] w =
    (o,
     {| warnings :=
          (warnings w ++ (if bq then [TrainingRange_q] else [])
                      ++ (if bA then [TrainingRange_BhA] else [])
                      ++ (if bB then [TrainingRange_BhB] else []))%list;
        calls := calls w |}).
Proof.
  apply (@validation_appends_warnings unit (lit 9) [lit 0; lit 0; lit 0.9]
           [lit 0; lit 0; lit 0.5] []);
    try (vm_compute; reflexivity);
    intros z H; cbn in H; injection H as <-; vm_compute; reflexivity.
Defined.

(** The four evaluations at [q = 4.3], [chiA = [0,0,0.6]], [chiB =
    [0,0,-0.7]]. *)
Lemma eval_wrapper_all_agrees_with_single_witness :
  exists mC mC_err chiC chiC_err velC velC_err : value float,
    fst (_eval_wrapper mock_evaluator "mC" (lit 4.3) [lit 0; lit 0; lit 0.6]
           [lit 0; lit 0; lit (-0.7)] [] fresh)
    = Value (Some (Tuple [mC; mC_err])) /\
    fst (_eval_wrapper mock_evaluator "chiC" (lit 4.3) [lit 0; lit 0; lit 0.6]
           [lit 0; lit 0; lit (-0.7)] [] fresh)
    = Value (Some (Tuple [chiC; chiC_err])) /\
    fst (_eval_wrapper mock_evaluator "velC" (lit 4.3) [lit 0; lit 0; lit 0.6]
           [lit 0; lit 0; lit (-0.7)] [] fresh)
    = Value (Some (Tuple [velC; velC_err])) /\
    fst (_eval_wrapper mock_evaluator "all" (lit 4.3) [lit 0; lit 0; lit 0.6]
           [lit 0; lit 0; lit (-0.7)] [] fresh)
    = Value (Some (Tuple [mC; chiC; velC; mC_err; chiC_err; velC_err])).
Proof.
  apply (@eval_wrapper_all_agrees_with_single float Binary64.float_scalar
           mock_evaluator (lit 4.3) [lit 0; lit 0; lit 0.6]
           [lit 0; lit 0; lit (-0.7)] [] fresh fresh);
    vm_compute; reflexivity.
Defined.

(** [q = 1e200] with a [pow] that is the rounded square. *)
Lemma get_fit_params_overflow_witness :
  _get_fit_params square_pow log_stand_in
    [0x1.4e718d7d7625ap+664%float; lit 0.5; lit (-0.5)] "mC" fresh
  = (Error OverflowError, fresh).
Proof.
  apply (@get_fit_params_overflow square_pow log_stand_in
           0x1.4e718d7d7625ap+664%float (lit 0.5) (lit (-0.5)) "mC"%string
           fresh);
    vm_compute; reflexivity.
Defined.

(** A list of two numbers. *)
Lemma get_fit_params_arity_witness :
  _get_fit_params square_pow log_stand_in [lit 2; lit 0.5] "mC" fresh
  = (Error (ValueError "not enough values to unpack"), fresh).
Proof.
  apply (proj1 (@get_fit_params_arity square_pow log_stand_in
                  [lit 2; lit 0.5] "mC"%string fresh)).
  cbn. lia.
Defined.

End MoreConcreteInputs.
